(** * infimount: the storage-emulator provisioning scripts

    A shallow embedding of [create_resources.py] (repository root) and of
    [storage-simulator/create_resources.py], the two scripts that create a
    test bucket and a test container against local S3 and Azure Blob
    emulators, and the properties of their control flow, their printed
    output and their effect on the emulators.

    The scripts are straight-line Python: SDK calls, [print] and
    [try]/[except Exception].  They are embedded in a small monad that
    threads the state of the emulated services, returns a completion
    (normal or raised exception) and records, in order, every printed line
    and every SDK call.

    What lies outside the scripts is a parameter: the SDKs and the
    services behind them are an arbitrary instance of the class [SDK], so
    a statement holds whatever the calls return, raise or change.  Three
    things are taken for granted: the module-level imports succeed, an SDK
    call returns or raises (it does not hang), and [print] itself does not
    raise. *)

From Stdlib Require Import String Ascii List Bool Lia.
From stdpp Require Import base option list strings gmap.

Local Open Scope string_scope.
Local Open Scope list_scope.

(** ** Python values and exceptions *)

(** An exception object, as far as the scripts look at it: its class name
    and the text [str(e)] (which is also what an f-string field [{e}]
    renders).  The SDKs raise subclasses of [Exception] only, which is
    what [except Exception] catches; every [PyException] is one of those. *)
Record PyException := mkExc { exc_class : string; exc_str : string }.

(** How a Python statement or call ends. *)
Inductive Completion (A : Type) : Type :=
| Normal (a : A)
| Raised (e : PyException).
Arguments Normal {A} a.
Arguments Raised {A} e.

Definition raised_exc {A} (c : Completion A) : option PyException :=
  match c with
  | Normal _ => None
  | Raised e => Some e
  end.

(** A dict whose values are only ever printed: key to [str] of the value. *)
Abbreviation PyDict := (gmap string string).

(** [sub in s] on Python strings. *)
Fixpoint py_in (sub s : string) : bool :=
  String.prefix sub s ||
  match s with
  | EmptyString => false
  | String _ s' => py_in sub s'
  end.

(** ** What the scripts pass to the SDKs *)

(** Keyword arguments of [boto3.client('s3', ...)]; [addressing_style] is
    the [config=Config(s3={'addressing_style': ...})] argument, when given. *)
Record S3Config := mkS3Config {
  endpoint_url : string;
  aws_access_key_id : string;
  aws_secret_access_key : string;
  region_name : string;
  addressing_style : option string
}.

(** The SDK calls the scripts make, with their arguments. *)
Inductive SdkCall : Type :=
| Boto3Client (cfg : S3Config)
| ListBuckets
| CreateBucket (Bucket : string)
| PutObject (Bucket Key Body : string)
| FromConnectionString (conn_str : string)
| GetContainerClient (container : string)
| CreateContainer.

(** What a run does that can be observed, in order: lines written to
    standard output and SDK calls with the exception they raised, if any. *)
Inductive Event : Type :=
| Print (line : string)
| Call (c : SdkCall) (exc : option PyException).

(** Standard output of a run: the text of each [print] call, in order.
    One call is one entry; a text that carries an exception's [str] may
    itself span several lines of the terminal. *)
Definition stdout (t : list Event) : list string :=
  omap (fun ev => match ev with Print l => Some l | Call _ _ => None end) t.

(** The SDK calls of a run, in order. *)
Definition calls (t : list Event) : list SdkCall :=
  omap (fun ev => match ev with Print _ => None | Call c _ => Some c end) t.

(** ** The SDKs and the services behind them *)

(** boto3 and azure-storage-blob together with the emulators they talk
    to.  [Emulator] is the state of the emulated services (and of the
    network); every call returns or raises, and may change that state.
    Nothing is assumed about when a call raises or what it changes. *)
Class SDK := {
  Emulator : Type;
  S3Client : Type;
  BlobServiceClient : Type;
  ContainerClient : Type;
  boto3_client : S3Config -> Emulator -> Completion S3Client * Emulator;
  list_buckets : S3Client -> Emulator -> Completion PyDict * Emulator;
  create_bucket : S3Client -> string -> Emulator -> Completion unit * Emulator;
  put_object :
    S3Client -> string -> string -> string -> Emulator -> Completion unit * Emulator;
  from_connection_string :
    string -> Emulator -> Completion BlobServiceClient * Emulator;
  get_container_client :
    BlobServiceClient -> string -> Emulator -> Completion ContainerClient * Emulator;
  create_container : ContainerClient -> Emulator -> Completion unit * Emulator
}.

(** ** The monad of script fragments *)

Section Python.
Context `{sdk : SDK}.

(** A script fragment: from the state of the services to a completion,
    the new state and the events of the fragment. *)
Definition Py (A : Type) : Type :=
  Emulator -> Completion A * Emulator * list Event.

Definition ret {A} (a : A) : Py A := fun w => (Normal a, w, []).

Definition raise {A} (e : PyException) : Py A := fun w => (Raised e, w, []).

Definition bind {A B} (m : Py A) (k : A -> Py B) : Py B :=
  fun w =>
    match m w with
    | (Normal a, w1, t1) =>
        match k a w1 with
        | (r, w2, t2) => (r, w2, t1 ++ t2)
        end
    | (Raised e, w1, t1) => (Raised e, w1, t1)
    end.

(** [try: body / except Exception as e: handler]. *)
Definition try_except {A} (body : Py A) (handler : PyException -> Py A) : Py A :=
  fun w =>
    match body w with
    | (Normal a, w1, t1) => (Normal a, w1, t1)
    | (Raised e, w1, t1) =>
        match handler e w1 with
        | (r, w2, t2) => (r, w2, t1 ++ t2)
        end
    end.

(** [print(a1, ..., an)]: the arguments' texts joined by one space. *)
Definition print (args : list string) : Py unit :=
  fun w => (Normal tt, w, [Print (String.concat " " args)]).

(** An SDK call, recorded in the events of the run. *)
Definition sdk_call {A} (c : SdkCall)
    (op : Emulator -> Completion A * Emulator) : Py A :=
  fun w =>
    match op w with
    | (r, w1) => (r, w1, [Call c (raised_exc r)])
    end.

(** [d[k]]: raises [KeyError(k)], whose text is the [repr] of the key. *)
Definition getitem (d : PyDict) (k : string) : Py string :=
  match d !! k with
  | Some v => ret v
  | None => raise (mkExc "KeyError" ("'" +:+ k +:+ "'"))
  end.

Definition result {A} (r : Completion A * Emulator * list Event) : Completion A :=
  fst (fst r).
Definition final {A} (r : Completion A * Emulator * list Event) : Emulator :=
  snd (fst r).
Definition trace {A} (r : Completion A * Emulator * list Event) : list Event :=
  snd r.

End Python.

Declare Scope py_scope.
Delimit Scope py_scope with py.
Notation "x <- m ;; k" := (bind m (fun x => k))
  (at level 100, m at next level, right associativity) : py_scope.
Notation "m ;; k" := (bind m (fun _ => k))
  (at level 100, right associativity) : py_scope.

Local Open Scope py_scope.

(** ** [create_resources.py] *)

Module Root.
Section Script.
Context `{sdk : SDK}.

Definition s3_config : S3Config :=
  {| endpoint_url := "http://127.0.0.1:8333";
     aws_access_key_id := "admin";
     aws_secret_access_key := "password123";
     region_name := "us-east-1";
     addressing_style := None |}.

Definition create_s3_bucket : Py unit :=
  print ["Creating S3 bucket..."] ;;
  try_except
    (s3 <- sdk_call (Boto3Client s3_config) (boto3_client s3_config) ;;
     sdk_call (CreateBucket "test-bucket") (create_bucket s3 "test-bucket") ;;
     print ["✅ S3 Bucket 'test-bucket' created"])
    (fun e => print ["❌ S3 Error: " +:+ exc_str e]).

Definition connection_string : string :=
  "DefaultEndpointsProtocol=http;AccountName=devstoreaccount1;AccountKey=Eby8vdM02xNOcqFlqUwJPLlmEtlCDXJ1OUzFT50uSRZ6IFsuFq2UVErCz4I6tq/K1SZFPTOtr/KBHBeksoGMGw==;BlobEndpoint=http://localhost:10000/devstoreaccount1;".

Definition create_azure_container : Py unit :=
  print ["Creating Azure container..."] ;;
  try_except
    (blob_service_client <-
       sdk_call (FromConnectionString connection_string)
                (from_connection_string connection_string) ;;
     container_client <-
       sdk_call (GetContainerClient "test-container")
                (get_container_client blob_service_client "test-container") ;;
     try_except
       (sdk_call CreateContainer (create_container container_client) ;;
        print ["✅ Azure Container 'test-container' created"])
       (fun e =>
          if py_in "ContainerAlreadyExists" (exc_str e)
          then print ["ℹ️ Azure Container already exists"]
          else print ["❌ Azure Error: " +:+ exc_str e]))
    (fun e => print ["❌ Azure Script Error: " +:+ exc_str e]).

(** [if __name__ == "__main__":] *)
Definition main : Py unit :=
  create_s3_bucket ;;
  create_azure_container.

End Script.
End Root.

(** ** [storage-simulator/create_resources.py] *)

Module StorageSimulator.
Section Script.
Context `{sdk : SDK}.

Definition s3_config : S3Config :=
  {| endpoint_url := "http://localhost:8333";
     aws_access_key_id := "admin";
     aws_secret_access_key := "password123";
     region_name := "us-east-1";
     addressing_style := Some "path" |}.

Definition create_s3_bucket : Py unit :=
  print ["Creating S3 bucket..."] ;;
  try_except
    (s3 <- sdk_call (Boto3Client s3_config) (boto3_client s3_config) ;;
     response <- sdk_call ListBuckets (list_buckets s3) ;;
     buckets <- getitem response "Buckets" ;;
     print ["Buckets:"; buckets] ;;
     try_except
       (sdk_call (CreateBucket "test-bucket") (create_bucket s3 "test-bucket") ;;
        print ["✅ S3 Bucket 'test-bucket' created"])
       (fun e =>
          if py_in "BucketAlreadyExists" (exc_str e)
             || py_in "BucketNameUnavailable" (exc_str e)
          then print ["ℹ️ S3 Bucket already exists"]
          else raise e) ;;
     sdk_call (PutObject "test-bucket" "test_file_boto.txt" "Hello Boto3")
              (put_object s3 "test-bucket" "test_file_boto.txt" "Hello Boto3") ;;
     print ["✅ S3 Upload successful via Boto3"])
    (fun e => print ["❌ S3 Error: " +:+ exc_str e]).

Definition connection_string : string :=
  "DefaultEndpointsProtocol=http;AccountName=devstoreaccount1;AccountKey=Eby8vdM02xNOcqFlqUwJPLlmEtlCDXJ1OUzFT50uSRZ6IFsuFq2UVErCz4I6tq/K1SZFPTOtr/KBHBeksoGMGw==;BlobEndpoint=http://localhost:10000/devstoreaccount1;".

Definition create_azure_container : Py unit :=
  print ["Creating Azure container..."] ;;
  try_except
    (blob_service_client <-
       sdk_call (FromConnectionString connection_string)
                (from_connection_string connection_string) ;;
     container_client <-
       sdk_call (GetContainerClient "test-container")
                (get_container_client blob_service_client "test-container") ;;
     try_except
       (sdk_call CreateContainer (create_container container_client) ;;
        print ["✅ Azure Container 'test-container' created"])
       (fun e =>
          if py_in "ContainerAlreadyExists" (exc_str e)
          then print ["ℹ️ Azure Container already exists"]
          else print ["❌ Azure Error: " +:+ exc_str e]))
    (fun e => print ["❌ Azure Script Error: " +:+ exc_str e]).

(** [if __name__ == "__main__":] *)
Definition main : Py unit :=
  create_s3_bucket ;;
  create_azure_container.

End Script.
End StorageSimulator.

(** ** The lines the scripts print, by kind

    Every status line starts with a glyph: success, information or error. *)

(** The line an [except] clause prints for the exception it caught. *)
Definition error_report (line : string) (e : PyException) : Prop :=
  line = "❌ S3 Error: " +:+ exc_str e \/
  line = "❌ Azure Error: " +:+ exc_str e \/
  line = "❌ Azure Script Error: " +:+ exc_str e.

Definition already_exists_notice (line : string) : Prop :=
  line = "ℹ️ S3 Bucket already exists" \/
  line = "ℹ️ Azure Container already exists".

Definition is_error_line (line : string) : bool := String.prefix "❌" line.
Definition is_info_line (line : string) : bool := String.prefix "ℹ️" line.
Definition is_success_line (line : string) : bool := String.prefix "✅" line.

(** The text tests of the two inner [except] clauses. *)
Definition s3_already_exists (e : PyException) : bool :=
  py_in "BucketAlreadyExists" (exc_str e)
  || py_in "BucketNameUnavailable" (exc_str e).

Definition azure_already_exists (e : PyException) : bool :=
  py_in "ContainerAlreadyExists" (exc_str e).

(** ** Two instances of the SDKs *)

(** *** Canned responses

    An SDK double without state: every call ends the way the record says.
    It reaches every path of the scripts. *)
Record Canned := mkCanned {
  client_raises : option PyException;
  list_raises : option PyException;
  list_response : PyDict;
  create_bucket_raises : option PyException;
  put_object_raises : option PyException;
  from_connection_string_raises : option PyException;
  get_container_client_raises : option PyException;
  create_container_raises : option PyException
}.

Definition canned {A} (o : option PyException) (a : A) (w : unit) :
    Completion A * unit :=
  match o with
  | None => (Normal a, w)
  | Some e => (Raised e, w)
  end.

Definition canned_sdk (r : Canned) : SDK :=
  {| Emulator := unit;
     S3Client := unit;
     BlobServiceClient := unit;
     ContainerClient := unit;
     boto3_client := fun _ => canned (client_raises r) tt;
     list_buckets := fun _ => canned (list_raises r) (list_response r);
     create_bucket := fun _ _ => canned (create_bucket_raises r) tt;
     put_object := fun _ _ _ _ => canned (put_object_raises r) tt;
     from_connection_string := fun _ => canned (from_connection_string_raises r) tt;
     get_container_client := fun _ _ => canned (get_container_client_raises r) tt;
     create_container := fun _ => canned (create_container_raises r) tt |}.

(** *** A local emulator pair

    A small model of the two services: an S3 endpoint holding buckets of
    objects and a blob endpoint holding containers, each of which may be
    down.  Creating what exists is refused with the service's error code
    in the exception text, as the S3 and Blob REST APIs do. *)
Record Services := mkServices {
  s3_up : bool;
  s3_buckets : gmap string (gmap string string);
  blob_up : bool;
  blob_containers : gset string
}.

Definition with_buckets (bs : gmap string (gmap string string)) (w : Services) :=
  {| s3_up := s3_up w; s3_buckets := bs;
     blob_up := blob_up w; blob_containers := blob_containers w |}.

Definition with_containers (cs : gset string) (w : Services) :=
  {| s3_up := s3_up w; s3_buckets := s3_buckets w;
     blob_up := blob_up w; blob_containers := cs |}.

Definition EndpointConnectionError (url : string) : PyException :=
  mkExc "EndpointConnectionError" ("Could not connect to the endpoint URL: " +:+ url).

Definition ClientError (code operation message : string) : PyException :=
  mkExc "ClientError"
    ("An error occurred (" +:+ code +:+ ") when calling the " +:+ operation
     +:+ " operation: " +:+ message).

Definition ServiceRequestError : PyException :=
  mkExc "ServiceRequestError" "Cannot connect to host localhost:10000".

Definition ResourceExistsError : PyException :=
  mkExc "ResourceExistsError"
    "The specified container already exists. ErrorCode:ContainerAlreadyExists".

Definition ValueError (message : string) : PyException :=
  mkExc "ValueError" message.

Definition buckets_repr (bs : gmap string (gmap string string)) : string :=
  "[" +:+ String.concat ", "
            (map (fun b => "{'Name': '" +:+ fst b +:+ "'}") (map_to_list bs))
      +:+ "]".

Definition emu_boto3_client (cfg : S3Config) (w : Services) :
    Completion S3Config * Services :=
  (Normal cfg, w).

Definition emu_list_buckets (c : S3Config) (w : Services) :
    Completion PyDict * Services :=
  if s3_up w
  then (Normal {[ "Buckets" := buckets_repr (s3_buckets w) ]}, w)
  else (Raised (EndpointConnectionError (endpoint_url c)), w).

Definition emu_create_bucket (c : S3Config) (b : string) (w : Services) :
    Completion unit * Services :=
  if s3_up w
  then match s3_buckets w !! b with
       | Some _ =>
           (Raised (ClientError "BucketAlreadyExists" "CreateBucket"
                      "The requested bucket name is not available."), w)
       | None => (Normal tt, with_buckets (<[b := ∅]> (s3_buckets w)) w)
       end
  else (Raised (EndpointConnectionError (endpoint_url c)), w).

Definition emu_put_object (c : S3Config) (b k body : string) (w : Services) :
    Completion unit * Services :=
  if s3_up w
  then match s3_buckets w !! b with
       | Some objs =>
           (Normal tt, with_buckets (<[b := <[k := body]> objs]> (s3_buckets w)) w)
       | None =>
           (Raised (ClientError "NoSuchBucket" "PutObject"
                      "The specified bucket does not exist"), w)
       end
  else (Raised (EndpointConnectionError (endpoint_url c)), w).

Definition emu_from_connection_string (cs : string) (w : Services) :
    Completion unit * Services :=
  if py_in "AccountName=" cs && py_in "AccountKey=" cs
  then (Normal tt, w)
  else (Raised (ValueError "Connection string missing required connection details."), w).

Definition emu_get_container_client (_ : unit) (name : string) (w : Services) :
    Completion string * Services :=
  (Normal name, w).

Definition emu_create_container (name : string) (w : Services) :
    Completion unit * Services :=
  if blob_up w
  then if decide (name ∈ blob_containers w)
       then (Raised ResourceExistsError, w)
       else (Normal tt, with_containers ({[ name ]} ∪ blob_containers w) w)
  else (Raised ServiceRequestError, w).

Definition emulator_sdk : SDK :=
  {| Emulator := Services;
     S3Client := S3Config;
     BlobServiceClient := unit;
     ContainerClient := string;
     boto3_client := emu_boto3_client;
     list_buckets := emu_list_buckets;
     create_bucket := emu_create_bucket;
     put_object := emu_put_object;
     from_connection_string := emu_from_connection_string;
     get_container_client := emu_get_container_client;
     create_container := emu_create_container |}.

(** The object stored under a key of a bucket, if any. *)
Definition emu_object (w : Services) (b k : string) : option string :=
  objs ← s3_buckets w !! b; objs !! k.

(** Both services up and empty. *)
Definition fresh : Services :=
  {| s3_up := true; s3_buckets := ∅; blob_up := true; blob_containers := ∅ |}.

(** Both services unreachable. *)
Definition down : Services :=
  {| s3_up := false; s3_buckets := ∅; blob_up := false; blob_containers := ∅ |}.

(** The test bucket exists and holds an older object under the fixed key. *)
Definition stale : Services :=
  {| s3_up := true;
     s3_buckets := {[ "test-bucket" := {[ "test_file_boto.txt" := "old body" ]} ]};
     blob_up := true;
     blob_containers := {[ "test-container" ]} |}.

(** The blob service as seen apart from the S3 service. *)
Definition emu_blob_view (w : Services) : bool * gset string :=
  (blob_up w, blob_containers w).

(** The listing has no ['Buckets'] entry; otherwise all calls succeed. *)
Definition no_buckets_key : Canned :=
  {| client_raises := None;
     list_raises := None;
     list_response := ∅;
     create_bucket_raises := None;
     put_object_raises := None;
     from_connection_string_raises := None;
     get_container_client_raises := None;
     create_container_raises := None |}.

(** One call fails with the given exception; the others succeed. *)
Definition create_bucket_fails (e : PyException) : Canned :=
  {| client_raises := None;
     list_raises := None;
     list_response := {[ "Buckets" := "[]" ]};
     create_bucket_raises := Some e;
     put_object_raises := None;
     from_connection_string_raises := None;
     get_container_client_raises := None;
     create_container_raises := None |}.

Definition put_object_fails (e : PyException) : Canned :=
  {| client_raises := None;
     list_raises := None;
     list_response := {[ "Buckets" := "[]" ]};
     create_bucket_raises := None;
     put_object_raises := Some e;
     from_connection_string_raises := None;
     get_container_client_raises := None;
     create_container_raises := None |}.

Definition from_connection_string_fails (e : PyException) : Canned :=
  {| client_raises := None;
     list_raises := None;
     list_response := {[ "Buckets" := "[]" ]};
     create_bucket_raises := None;
     put_object_raises := None;
     from_connection_string_raises := Some e;
     get_container_client_raises := None;
     create_container_raises := None |}.


Definition InternalError : PyException :=
  mkExc "ClientError"
    "An error occurred (InternalError) when calling the operation: We encountered an internal error, please try again.".

Definition BucketAlreadyExists : PyException :=
  ClientError "BucketAlreadyExists" "CreateBucket"
    "The requested bucket name is not available.".

(** ** Vocabulary of the statements *)


(** Every exception an SDK call raised is followed at once by a printed
    line: the error report of that exception, after which the run is over,
    or, for a creation call whose error text passes the clause's test, the
    already-exists notice. *)
Definition caught_and_reported (t : list Event) : Prop :=
  forall i c e, t !! i = Some (Call c (Some e)) ->
    exists line, t !! S i = Some (Print line) /\
      ((error_report line e /\ length t = S (S i)) \/
       (already_exists_notice line /\
        (c = CreateBucket "test-bucket" /\ s3_already_exists e = true \/
         c = CreateContainer /\ azure_already_exists e = true))).

(** The outer [except] clause of [create_s3_bucket] ran last. *)
Definition s3_error_path (t : list Event) : Prop :=
  exists e, last t = Some (Print ("❌ S3 Error: " +:+ exc_str e)).

Definition upload_call : SdkCall :=
  PutObject "test-bucket" "test_file_boto.txt" "Hello Boto3".

(** The SDK calls of [create_s3_bucket] in the storage-simulator script,
    in program order. *)
Definition sim_s3_calls : list SdkCall :=
  [ Boto3Client StorageSimulator.s3_config; ListBuckets;
    CreateBucket "test-bucket"; upload_call ].

(** The SDK calls of the other provisioners, in program order. *)
Definition root_s3_calls : list SdkCall :=
  [ Boto3Client Root.s3_config; CreateBucket "test-bucket" ].

Definition azure_calls : list SdkCall :=
  [ FromConnectionString Root.connection_string;
    GetContainerClient "test-container"; CreateContainer ].

(** [line] is printed exactly after the returns of [c]: right after every
    normal return of [c], and nowhere else. *)
Definition announces (t : list Event) (c : SdkCall) (line : string) : Prop :=
  (forall i, t !! i = Some (Call c None) -> t !! S i = Some (Print line)) /\
  (forall i, t !! i = Some (Print line) ->
     exists j, i = S j /\ t !! j = Some (Call c None)).

(** The status messages of the Azure provisioner. *)
Definition azure_status (message : string) : Prop :=
  message = "✅ Azure Container 'test-container' created" \/
  message = "ℹ️ Azure Container already exists" \/
  (exists e, message = "❌ Azure Error: " +:+ exc_str e) \/
  (exists e, message = "❌ Azure Script Error: " +:+ exc_str e).

(** The status messages of the root script's S3 provisioner. *)
Definition root_s3_status (message : string) : Prop :=
  message = "✅ S3 Bucket 'test-bucket' created" \/
  (exists e, message = "❌ S3 Error: " +:+ exc_str e).

(** The sequences of messages the storage-simulator script's S3
    provisioner prints. *)
Definition sim_s3_output (out : list string) : Prop :=
  exists e buckets ensured,
    (ensured = "✅ S3 Bucket 'test-bucket' created" \/
     ensured = "ℹ️ S3 Bucket already exists") /\
    (out = [ "Creating S3 bucket..."; "❌ S3 Error: " +:+ exc_str e ] \/
     out = [ "Creating S3 bucket..."; "Buckets: " +:+ buckets;
             "❌ S3 Error: " +:+ exc_str e ] \/
     out = [ "Creating S3 bucket..."; "Buckets: " +:+ buckets; ensured;
             "❌ S3 Error: " +:+ exc_str e ] \/
     out = [ "Creating S3 bucket..."; "Buckets: " +:+ buckets; ensured;
             "✅ S3 Upload successful via Boto3" ]).

(** The client cannot be built; the other calls succeed. *)
Definition client_fails (e : PyException) : Canned :=
  {| client_raises := Some e;
     list_raises := None;
     list_response := {[ "Buckets" := "[]" ]};
     create_bucket_raises := None;
     put_object_raises := None;
     from_connection_string_raises := None;
     get_container_client_raises := None;
     create_container_raises := None |}.

(** What the emulator pair holds. *)
Definition emu_bucket_exists (w : Services) (b : string) : Prop :=
  is_Some (s3_buckets w !! b).

Definition emu_container_exists (w : Services) (n : string) : Prop :=
  n ∈ blob_containers w.

(** The run ends normally in state [w'] right after the failed call: its
    events are [before], then the call [c] raising [e], then the print of
    [report], and nothing more. *)
Definition ends_reporting `{sdk : SDK}
    (outcome : Completion unit * Emulator * list Event) (w' : Emulator)
    (before : list Event) (c : SdkCall) (e : PyException) (report : string) : Prop :=
  outcome = (Normal tt, w', before ++ [ Call c (Some e); Print report ]).

(** What [create_s3_bucket] of the storage-simulator script prints once the
    bucket is ensured, by the way [create_bucket] ended. *)
Definition ensured_message (created : Completion unit) : string :=
  match created with
  | Normal _ => "✅ S3 Bucket 'test-bucket' created"
  | Raised _ => "ℹ️ S3 Bucket already exists"
  end.

(** The container client cannot be obtained; the other calls succeed. *)
Definition get_container_client_fails (e : PyException) : Canned :=
  {| client_raises := None;
     list_raises := None;
     list_response := {[ "Buckets" := "[]" ]};
     create_bucket_raises := None;
     put_object_raises := None;
     from_connection_string_raises := None;
     get_container_client_raises := Some e;
     create_container_raises := None |}.

(** * Properties *)

(** ** Symbolic execution of the scripts *)

Ltac py_unfold :=
  unfold Root.main, StorageSimulator.main,
    Root.create_s3_bucket, Root.create_azure_container,
    StorageSimulator.create_s3_bucket, StorageSimulator.create_azure_container,
    bind, try_except, print, sdk_call, getitem, ret, raise,
    result, final, trace in *.

Ltac py_simpl := cbn [fst snd app raised_exc orb String.concat] in *.

(** One case split on the outcome of the next SDK call, dict lookup or
    text test of the goal. *)
Ltac py_case :=
  match goal with
  | |- context [boto3_client ?c ?w] =>
      destruct (boto3_client c w) as [[?|?] ?] eqn:?
  | |- context [list_buckets ?c ?w] =>
      destruct (list_buckets c w) as [[?|?] ?] eqn:?
  | |- context [create_bucket ?c ?b ?w] =>
      destruct (create_bucket c b w) as [[[]|?] ?] eqn:?
  | |- context [put_object ?c ?b ?k ?v ?w] =>
      destruct (put_object c b k v w) as [[[]|?] ?] eqn:?
  | |- context [from_connection_string ?c ?w] =>
      destruct (from_connection_string c w) as [[?|?] ?] eqn:?
  | |- context [get_container_client ?c ?n ?w] =>
      destruct (get_container_client c n w) as [[?|?] ?] eqn:?
  | |- context [create_container ?c ?w] =>
      destruct (create_container c w) as [[[]|?] ?] eqn:?
  | |- context [@lookup _ _ (gmap string string) _ ?k ?d] =>
      destruct (d !! k) eqn:?
  | |- context [py_in ?a ?b] => destruct (py_in a b) eqn:?
  end; py_simpl.

Ltac py_run := py_unfold; py_simpl; repeat py_case.

(** From [t !! i = Some ev] on an explicit trace to the positions [i]
    where [ev] can stand. *)
Ltac by_index H i :=
  repeat (first [ discriminate H | destruct i as [|i]; cbn in H ]).

Ltac use_tests :=
  repeat match goal with
         | H : py_in _ _ = _ |- _ => rewrite H
         end.

(** ** Glyphs *)

Lemma error_report_is_error_line (line : string) (e : PyException) :
  error_report line e -> is_error_line line = true.
Proof. intros [-> | [-> | ->]]; reflexivity. Qed.

Lemma notice_is_info_line (line : string) :
  already_exists_notice line -> is_info_line line = true /\ is_error_line line = false.
Proof. intros [-> | ->]; split; reflexivity. Qed.

(** ** Text tests *)

Lemma append_String (c : ascii) (a b : string) :
  String c a +:+ b = String c (a +:+ b).
Proof. reflexivity. Qed.

Lemma append_empty (b : string) : "" +:+ b = b.
Proof. reflexivity. Qed.






(** ** The function boundary *)

Section Boundaries.
Context `{sdk : SDK}.

Lemma trace_print_then (args : list string) (k : Py unit) (w : Emulator) :
  trace ((print args ;; k) w) = Print (String.concat " " args) :: trace (k w).
Proof.
  unfold bind, print, trace. destruct (k w) as [[r w'] t]. reflexivity.
Qed.

(** C10. Each provisioner, in both scripts, starts by printing its header
    line: the first event of every run, before any SDK call and whatever
    the calls do afterwards, is that line. *)
Theorem header_printed_first (w : Emulator) :
  head (trace (Root.create_s3_bucket w)) = Some (Print "Creating S3 bucket...") /\
  head (trace (StorageSimulator.create_s3_bucket w))
    = Some (Print "Creating S3 bucket...") /\
  head (trace (Root.create_azure_container w))
    = Some (Print "Creating Azure container...") /\
  head (trace (StorageSimulator.create_azure_container w))
    = Some (Print "Creating Azure container...").
Proof.
  unfold Root.create_s3_bucket, StorageSimulator.create_s3_bucket,
    Root.create_azure_container, StorageSimulator.create_azure_container.
  rewrite !trace_print_then. repeat split.
Qed.

Ltac reported_here H :=
  injection H as <- <-; eexists; split; [reflexivity |];
  first
    [ left; split; [ first [ left; reflexivity
                           | right; left; reflexivity
                           | right; right; reflexivity ]
                   | reflexivity ]
    | right; split;
      [ first [ left; reflexivity | right; reflexivity ]
      | first [ left; split; [reflexivity |]; unfold s3_already_exists
              | right; split; [reflexivity |]; unfold azure_already_exists ];
        use_tests; reflexivity ] ].

Lemma root_s3_reported w : caught_and_reported (trace (Root.create_s3_bucket w)).
Proof. py_run; intros i c exn H; by_index H i; reported_here H. Qed.

Lemma sim_s3_reported w :
  caught_and_reported (trace (StorageSimulator.create_s3_bucket w)).
Proof. py_run; intros i c exn H; by_index H i; reported_here H. Qed.

Lemma root_azure_reported w :
  caught_and_reported (trace (Root.create_azure_container w)).
Proof. py_run; intros i c exn H; by_index H i; reported_here H. Qed.

Lemma sim_azure_reported w :
  caught_and_reported (trace (StorageSimulator.create_azure_container w)).
Proof. py_run; intros i c exn H; by_index H i; reported_here H. Qed.

Lemma root_s3_returns w : result (Root.create_s3_bucket w) = Normal tt.
Proof. py_run; reflexivity. Qed.

Lemma sim_s3_returns w : result (StorageSimulator.create_s3_bucket w) = Normal tt.
Proof. py_run; reflexivity. Qed.

Lemma root_azure_returns w : result (Root.create_azure_container w) = Normal tt.
Proof. py_run; reflexivity. Qed.

Lemma sim_azure_returns w :
  result (StorageSimulator.create_azure_container w) = Normal tt.
Proof. py_run; reflexivity. Qed.

(** Sequencing two fragments the first of which returns. *)
Lemma bind_returns {A B} (m : Py A) (k : Py B) (w : Emulator) (a : A) :
  result (m w) = Normal a ->
  (m ;; k) w = (result (k (final (m w))), final (k (final (m w))),
                trace (m w) ++ trace (k (final (m w)))).
Proof.
  unfold bind, result, final, trace.
  destruct (m w) as [[r w1] t1]; cbn. intros ->.
  destruct (k w1) as [[r2 w2] t2]. reflexivity.
Qed.

Lemma root_main_returns w : result (Root.main w) = Normal tt.
Proof.
  unfold Root.main. rewrite (bind_returns _ _ _ _ (root_s3_returns w)).
  apply root_azure_returns.
Qed.

Lemma sim_main_returns w : result (StorageSimulator.main w) = Normal tt.
Proof.
  unfold StorageSimulator.main. rewrite (bind_returns _ _ _ _ (sim_s3_returns w)).
  apply sim_azure_returns.
Qed.

(** *** The run of each failure

    For each SDK call of each provisioner: what the run is when that call
    is the one that raises. *)

Lemma root_s3_client_failure (w w1 : Emulator) (e : PyException) :
  boto3_client Root.s3_config w = (Raised e, w1) ->
  ends_reporting (Root.create_s3_bucket w) w1
    [ Print "Creating S3 bucket..." ]
    (Boto3Client Root.s3_config) e ("❌ S3 Error: " +:+ exc_str e).
Proof.
  intros Hclient. unfold ends_reporting. py_unfold. rewrite Hclient. reflexivity.
Qed.

Lemma root_s3_creation_failure (w w1 w2 : Emulator) (s3 : S3Client) (e : PyException) :
  boto3_client Root.s3_config w = (Normal s3, w1) ->
  create_bucket s3 "test-bucket" w1 = (Raised e, w2) ->
  ends_reporting (Root.create_s3_bucket w) w2
    [ Print "Creating S3 bucket..."; Call (Boto3Client Root.s3_config) None ]
    (CreateBucket "test-bucket") e ("❌ S3 Error: " +:+ exc_str e).
Proof.
  intros Hclient Hcreate. unfold ends_reporting. py_unfold.
  rewrite Hclient. cbn. rewrite Hcreate. reflexivity.
Qed.

Lemma sim_s3_client_failure (w w1 : Emulator) (e : PyException) :
  boto3_client StorageSimulator.s3_config w = (Raised e, w1) ->
  ends_reporting (StorageSimulator.create_s3_bucket w) w1
    [ Print "Creating S3 bucket..." ]
    (Boto3Client StorageSimulator.s3_config) e ("❌ S3 Error: " +:+ exc_str e).
Proof.
  intros Hclient. unfold ends_reporting. py_unfold. rewrite Hclient. reflexivity.
Qed.

Lemma sim_s3_list_failure (w w1 w2 : Emulator) (s3 : S3Client) (e : PyException) :
  boto3_client StorageSimulator.s3_config w = (Normal s3, w1) ->
  list_buckets s3 w1 = (Raised e, w2) ->
  ends_reporting (StorageSimulator.create_s3_bucket w) w2
    [ Print "Creating S3 bucket..."; Call (Boto3Client StorageSimulator.s3_config) None ]
    ListBuckets e ("❌ S3 Error: " +:+ exc_str e).
Proof.
  intros Hclient Hlist. unfold ends_reporting. py_unfold.
  rewrite Hclient. cbn. rewrite Hlist. reflexivity.
Qed.

Lemma sim_s3_creation_failure
    (w w1 w2 w3 : Emulator) (s3 : S3Client) (response : PyDict) (buckets : string)
    (e : PyException) :
  boto3_client StorageSimulator.s3_config w = (Normal s3, w1) ->
  list_buckets s3 w1 = (Normal response, w2) ->
  response !! "Buckets" = Some buckets ->
  create_bucket s3 "test-bucket" w2 = (Raised e, w3) ->
  s3_already_exists e = false ->
  ends_reporting (StorageSimulator.create_s3_bucket w) w3
    [ Print "Creating S3 bucket..."; Call (Boto3Client StorageSimulator.s3_config) None;
      Call ListBuckets None; Print ("Buckets: " +:+ buckets) ]
    (CreateBucket "test-bucket") e ("❌ S3 Error: " +:+ exc_str e).
Proof.
  intros Hclient Hlist Hkey Hcreate Hno. unfold ends_reporting, s3_already_exists in *.
  py_unfold. rewrite Hclient. cbn. rewrite Hlist. cbn. rewrite Hkey. cbn.
  rewrite Hcreate. cbn. rewrite Hno. reflexivity.
Qed.

Lemma sim_s3_upload_failure
    (w w1 w2 w3 w4 : Emulator) (s3 : S3Client) (response : PyDict) (buckets : string)
    (created : Completion unit) (e : PyException) :
  boto3_client StorageSimulator.s3_config w = (Normal s3, w1) ->
  list_buckets s3 w1 = (Normal response, w2) ->
  response !! "Buckets" = Some buckets ->
  create_bucket s3 "test-bucket" w2 = (created, w3) ->
  created = Normal tt \/ (exists e0, created = Raised e0 /\ s3_already_exists e0 = true) ->
  put_object s3 "test-bucket" "test_file_boto.txt" "Hello Boto3" w3 = (Raised e, w4) ->
  ends_reporting (StorageSimulator.create_s3_bucket w) w4
    [ Print "Creating S3 bucket..."; Call (Boto3Client StorageSimulator.s3_config) None;
      Call ListBuckets None; Print ("Buckets: " +:+ buckets);
      Call (CreateBucket "test-bucket") (raised_exc created);
      Print (ensured_message created) ]
    upload_call e ("❌ S3 Error: " +:+ exc_str e).
Proof.
  intros Hclient Hlist Hkey Hcreate Hensured Hput. unfold ends_reporting.
  py_unfold. rewrite Hclient. cbn. rewrite Hlist. cbn. rewrite Hkey. cbn.
  rewrite Hcreate.
  destruct Hensured as [-> | (e0 & -> & Hyes)]; cbn.
  - rewrite Hput. reflexivity.
  - unfold s3_already_exists in Hyes. rewrite Hyes. cbn. rewrite Hput. reflexivity.
Qed.

Lemma azure_connect_failure (run : Py unit) (w w1 : Emulator) (e : PyException) :
  run = Root.create_azure_container \/ run = StorageSimulator.create_azure_container ->
  from_connection_string Root.connection_string w = (Raised e, w1) ->
  ends_reporting (run w) w1
    [ Print "Creating Azure container..." ]
    (FromConnectionString Root.connection_string) e
    ("❌ Azure Script Error: " +:+ exc_str e).
Proof.
  intros [-> | ->] Hconnect; unfold ends_reporting; py_unfold.
  - rewrite Hconnect. reflexivity.
  - change StorageSimulator.connection_string with Root.connection_string.
    rewrite Hconnect. reflexivity.
Qed.

Lemma azure_container_client_failure
    (run : Py unit) (w w1 w2 : Emulator) (service : BlobServiceClient) (e : PyException) :
  run = Root.create_azure_container \/ run = StorageSimulator.create_azure_container ->
  from_connection_string Root.connection_string w = (Normal service, w1) ->
  get_container_client service "test-container" w1 = (Raised e, w2) ->
  ends_reporting (run w) w2
    [ Print "Creating Azure container...";
      Call (FromConnectionString Root.connection_string) None ]
    (GetContainerClient "test-container") e
    ("❌ Azure Script Error: " +:+ exc_str e).
Proof.
  intros [-> | ->] Hconnect Hclient; unfold ends_reporting; py_unfold.
  - rewrite Hconnect. cbn. rewrite Hclient. reflexivity.
  - change StorageSimulator.connection_string with Root.connection_string.
    rewrite Hconnect. cbn. rewrite Hclient. reflexivity.
Qed.

Lemma azure_creation_failure
    (run : Py unit) (w w1 w2 w3 : Emulator) (service : BlobServiceClient)
    (container : ContainerClient) (e : PyException) :
  run = Root.create_azure_container \/ run = StorageSimulator.create_azure_container ->
  from_connection_string Root.connection_string w = (Normal service, w1) ->
  get_container_client service "test-container" w1 = (Normal container, w2) ->
  create_container container w2 = (Raised e, w3) ->
  ends_reporting (run w) w3
    [ Print "Creating Azure container...";
      Call (FromConnectionString Root.connection_string) None;
      Call (GetContainerClient "test-container") None ]
    CreateContainer e
    (if azure_already_exists e
     then "ℹ️ Azure Container already exists"
     else "❌ Azure Error: " +:+ exc_str e).
Proof.
  intros [-> | ->] Hconnect Hclient Hcreate; unfold ends_reporting, azure_already_exists;
    py_unfold.
  - rewrite Hconnect. cbn. rewrite Hclient. cbn. rewrite Hcreate. cbn.
    destruct (py_in _ _); reflexivity.
  - change StorageSimulator.connection_string with Root.connection_string.
    rewrite Hconnect. cbn. rewrite Hclient. cbn. rewrite Hcreate. cbn.
    destruct (py_in _ _); reflexivity.
Qed.

(** C1. No exception leaves a provisioner.  In both scripts
    [create_s3_bucket], [create_azure_container] and the script as a whole
    return normally whatever the SDK calls do, and every exception of an
    SDK call is followed at once by a printed message.  Call by call:
    whichever SDK call raises (the client, the listing, the creation, the
    upload; the connection, the container client, the container
    creation), an unreachable endpoint included, the function prints the
    error report carrying the exception's text right after the failed
    call, makes no further call and returns normally in the state that
    call left.  (A creation error classified as already-exists is not a
    failure: it is answered by the notice.) *)
Theorem no_exception_escapes (w : Emulator) (e : PyException) :
  (result (Root.create_s3_bucket w) = Normal tt /\
   result (Root.create_azure_container w) = Normal tt /\
   result (StorageSimulator.create_s3_bucket w) = Normal tt /\
   result (StorageSimulator.create_azure_container w) = Normal tt /\
   result (Root.main w) = Normal tt /\
   result (StorageSimulator.main w) = Normal tt) /\
  (caught_and_reported (trace (Root.create_s3_bucket w)) /\
   caught_and_reported (trace (Root.create_azure_container w)) /\
   caught_and_reported (trace (StorageSimulator.create_s3_bucket w)) /\
   caught_and_reported (trace (StorageSimulator.create_azure_container w))) /\
  (* create_s3_bucket, root script *)
  ((forall w1,
      boto3_client Root.s3_config w = (Raised e, w1) ->
      ends_reporting (Root.create_s3_bucket w) w1
        [ Print "Creating S3 bucket..." ]
        (Boto3Client Root.s3_config) e ("❌ S3 Error: " +:+ exc_str e)) /\
   (forall s3 w1 w2,
      boto3_client Root.s3_config w = (Normal s3, w1) ->
      create_bucket s3 "test-bucket" w1 = (Raised e, w2) ->
      ends_reporting (Root.create_s3_bucket w) w2
        [ Print "Creating S3 bucket..."; Call (Boto3Client Root.s3_config) None ]
        (CreateBucket "test-bucket") e ("❌ S3 Error: " +:+ exc_str e))) /\
  (* create_s3_bucket, storage-simulator script *)
  ((forall w1,
      boto3_client StorageSimulator.s3_config w = (Raised e, w1) ->
      ends_reporting (StorageSimulator.create_s3_bucket w) w1
        [ Print "Creating S3 bucket..." ]
        (Boto3Client StorageSimulator.s3_config) e ("❌ S3 Error: " +:+ exc_str e)) /\
   (forall s3 w1 w2,
      boto3_client StorageSimulator.s3_config w = (Normal s3, w1) ->
      list_buckets s3 w1 = (Raised e, w2) ->
      ends_reporting (StorageSimulator.create_s3_bucket w) w2
        [ Print "Creating S3 bucket...";
          Call (Boto3Client StorageSimulator.s3_config) None ]
        ListBuckets e ("❌ S3 Error: " +:+ exc_str e)) /\
   (forall s3 w1 response w2 buckets w3,
      boto3_client StorageSimulator.s3_config w = (Normal s3, w1) ->
      list_buckets s3 w1 = (Normal response, w2) ->
      response !! "Buckets" = Some buckets ->
      create_bucket s3 "test-bucket" w2 = (Raised e, w3) ->
      s3_already_exists e = false ->
      ends_reporting (StorageSimulator.create_s3_bucket w) w3
        [ Print "Creating S3 bucket...";
          Call (Boto3Client StorageSimulator.s3_config) None;
          Call ListBuckets None; Print ("Buckets: " +:+ buckets) ]
        (CreateBucket "test-bucket") e ("❌ S3 Error: " +:+ exc_str e)) /\
   (forall s3 w1 response w2 buckets created w3 w4,
      boto3_client StorageSimulator.s3_config w = (Normal s3, w1) ->
      list_buckets s3 w1 = (Normal response, w2) ->
      response !! "Buckets" = Some buckets ->
      create_bucket s3 "test-bucket" w2 = (created, w3) ->
      created = Normal tt \/
      (exists e0, created = Raised e0 /\ s3_already_exists e0 = true) ->
      put_object s3 "test-bucket" "test_file_boto.txt" "Hello Boto3" w3
        = (Raised e, w4) ->
      ends_reporting (StorageSimulator.create_s3_bucket w) w4
        [ Print "Creating S3 bucket...";
          Call (Boto3Client StorageSimulator.s3_config) None;
          Call ListBuckets None; Print ("Buckets: " +:+ buckets);
          Call (CreateBucket "test-bucket") (raised_exc created);
          Print (ensured_message created) ]
        upload_call e ("❌ S3 Error: " +:+ exc_str e))) /\
  (* create_azure_container, both scripts *)
  (forall run : Py unit,
     run = Root.create_azure_container \/
     run = StorageSimulator.create_azure_container ->
     (forall w1,
        from_connection_string Root.connection_string w = (Raised e, w1) ->
        ends_reporting (run w) w1
          [ Print "Creating Azure container..." ]
          (FromConnectionString Root.connection_string) e
          ("❌ Azure Script Error: " +:+ exc_str e)) /\
     (forall service w1 w2,
        from_connection_string Root.connection_string w = (Normal service, w1) ->
        get_container_client service "test-container" w1 = (Raised e, w2) ->
        ends_reporting (run w) w2
          [ Print "Creating Azure container...";
            Call (FromConnectionString Root.connection_string) None ]
          (GetContainerClient "test-container") e
          ("❌ Azure Script Error: " +:+ exc_str e)) /\
     (forall service w1 container w2 w3,
        from_connection_string Root.connection_string w = (Normal service, w1) ->
        get_container_client service "test-container" w1 = (Normal container, w2) ->
        create_container container w2 = (Raised e, w3) ->
        azure_already_exists e = false ->
        ends_reporting (run w) w3
          [ Print "Creating Azure container...";
            Call (FromConnectionString Root.connection_string) None;
            Call (GetContainerClient "test-container") None ]
          CreateContainer e ("❌ Azure Error: " +:+ exc_str e))).
Proof.
  split; [| split; [| split; [| split]]].
  - repeat split.
    + apply root_s3_returns.
    + apply root_azure_returns.
    + apply sim_s3_returns.
    + apply sim_azure_returns.
    + apply root_main_returns.
    + apply sim_main_returns.
  - split; [apply root_s3_reported |]. split; [apply root_azure_reported |].
    split; [apply sim_s3_reported | apply sim_azure_reported].
  - split; intros.
    + apply root_s3_client_failure. assumption.
    + eapply root_s3_creation_failure; eassumption.
  - split; [| split; [| split]]; intros.
    + apply sim_s3_client_failure. assumption.
    + eapply sim_s3_list_failure; eassumption.
    + eapply sim_s3_creation_failure; eassumption.
    + eapply sim_s3_upload_failure; eassumption.
  - intros run Hrun. split; [| split]; intros.
    + apply azure_connect_failure; assumption.
    + eapply azure_container_client_failure; eassumption.
    + match goal with
      | Hno : azure_already_exists e = false |- _ =>
          pose proof (azure_creation_failure run w _ _ _ _ _ e Hrun
                        ltac:(eassumption) ltac:(eassumption) ltac:(eassumption)) as Hend;
          rewrite Hno in Hend; exact Hend
      end.
Qed.

End Boundaries.

(** ** Classification of creation errors *)

Section Classification.
Context `{sdk : SDK}.




End Classification.

(** ** The two boundaries of [create_azure_container] *)

Section AzureBoundaries.
Context `{sdk : SDK}.

Lemma azure_reports_differ (a b : string) :
  "❌ Azure Script Error: " +:+ a <> "❌ Azure Error: " +:+ b.
Proof. cbv [String.append]. discriminate. Qed.

(** C6. In [create_azure_container] of both scripts, when one of the
    calls that obtain the handles raises ([from_connection_string] or
    [get_container_client]), the outer clause catches it: the run prints
    the Azure Script Error report of that exception right after the failed
    call and ends.  When [create_container] raises an error that is not
    classified as already-exists, the inner clause catches it: the run
    prints the Azure Error report and ends.  The two reports are never the
    same text. *)
Theorem azure_handle_errors_reported_apart
    (run : Py unit) (w : Emulator) (e : PyException) :
  run = Root.create_azure_container \/ run = StorageSimulator.create_azure_container ->
  (forall w1,
     from_connection_string Root.connection_string w = (Raised e, w1) ->
     ends_reporting (run w) w1
       [ Print "Creating Azure container..." ]
       (FromConnectionString Root.connection_string) e
       ("❌ Azure Script Error: " +:+ exc_str e)) /\
  (forall service w1 w2,
     from_connection_string Root.connection_string w = (Normal service, w1) ->
     get_container_client service "test-container" w1 = (Raised e, w2) ->
     ends_reporting (run w) w2
       [ Print "Creating Azure container...";
         Call (FromConnectionString Root.connection_string) None ]
       (GetContainerClient "test-container") e
       ("❌ Azure Script Error: " +:+ exc_str e)) /\
  (forall service w1 container w2 w3,
     from_connection_string Root.connection_string w = (Normal service, w1) ->
     get_container_client service "test-container" w1 = (Normal container, w2) ->
     create_container container w2 = (Raised e, w3) ->
     azure_already_exists e = false ->
     ends_reporting (run w) w3
       [ Print "Creating Azure container...";
         Call (FromConnectionString Root.connection_string) None;
         Call (GetContainerClient "test-container") None ]
       CreateContainer e ("❌ Azure Error: " +:+ exc_str e)) /\
  (forall e1 e2 : PyException,
     "❌ Azure Script Error: " +:+ exc_str e1 <> "❌ Azure Error: " +:+ exc_str e2).
Proof.
  intros Hrun. split; [| split; [| split]].
  - intros w1 Hconnect. apply azure_connect_failure; assumption.
  - intros service w1 w2 Hconnect Hclient.
    eapply azure_container_client_failure; eassumption.
  - intros service w1 container w2 w3 Hconnect Hclient Hcreate Hno.
    pose proof (azure_creation_failure run w w1 w2 w3 service container e
                  Hrun Hconnect Hclient Hcreate) as Hend.
    rewrite Hno in Hend. exact Hend.
  - intros e1 e2. apply azure_reports_differ.
Qed.

End AzureBoundaries.

(** ** [create_s3_bucket] of the storage-simulator script *)

Section SimulatorS3.
Context `{sdk : SDK}.

Lemma sim_s3_call_order (w : Emulator) :
  calls (trace (StorageSimulator.create_s3_bucket w)) `prefix_of` sim_s3_calls.
Proof.
  unfold sim_s3_calls, upload_call. py_run; cbn.
  all: repeat first [ apply prefix_nil | reflexivity | apply prefix_cons ].
Qed.

(** An error of the upload and an unclassified error of the creation end
    the run with the same report. *)
Lemma sim_s3_one_report (w : Emulator) (i : nat) (c : SdkCall) (e : PyException) :
  let t := trace (StorageSimulator.create_s3_bucket w) in
  t !! i = Some (Call c (Some e)) ->
  c = upload_call \/ (c = CreateBucket "test-bucket" /\ s3_already_exists e = false) ->
  t !! S i = Some (Print ("❌ S3 Error: " +:+ exc_str e)) /\ length t = S (S i).
Proof.
  cbv zeta. unfold upload_call, s3_already_exists.
  py_run; intros H Hc; by_index H i; injection H as <- <-.
  all: try (split; reflexivity).
  all: destruct Hc as [Hc | [Hc Hno]]; try discriminate Hc.
  all: rewrite ?orb_true_r in Hno; cbn in Hno; congruence.
Qed.

(** What is printed when the creation fails for good, and when the upload
    fails. *)
Lemma sim_s3_creation_failure_output (w : Emulator) (i : nat) (e : PyException) :
  let t := trace (StorageSimulator.create_s3_bucket w) in
  t !! i = Some (Call (CreateBucket "test-bucket") (Some e)) ->
  s3_already_exists e = false ->
  exists buckets,
    stdout t = [ "Creating S3 bucket..."; "Buckets: " +:+ buckets;
                 "❌ S3 Error: " +:+ exc_str e ].
Proof.
  cbv zeta. unfold s3_already_exists.
  py_run; intros H Hno; by_index H i; injection H as <-.
  all: try (rewrite ?orb_true_r in Hno; cbn in Hno; congruence).
  all: eexists; reflexivity.
Qed.

Lemma sim_s3_upload_failure_output (w : Emulator) (i : nat) (e : PyException) :
  let t := trace (StorageSimulator.create_s3_bucket w) in
  t !! i = Some (Call upload_call (Some e)) ->
  exists buckets status,
    stdout t = [ "Creating S3 bucket..."; "Buckets: " +:+ buckets; status;
                 "❌ S3 Error: " +:+ exc_str e ] /\
    (status = "✅ S3 Bucket 'test-bucket' created" \/
     status = "ℹ️ S3 Bucket already exists").
Proof.
  cbv zeta. unfold upload_call.
  py_run; intros H; by_index H i; injection H as <-.
  all: eexists; eexists; split; [reflexivity |]; first [left; reflexivity | right; reflexivity].
Qed.

(** C8. When [list_buckets] raises, the run is: header, client, the
    failed listing, one S3 error report.  Neither [create_bucket] nor
    [put_object] is called, the function returns normally, and the
    services are left in the state the failed listing left them in. *)
Theorem sim_s3_list_failure_stops
    (w w1 w2 : Emulator) (s3 : S3Client) (e : PyException) :
  boto3_client StorageSimulator.s3_config w = (Normal s3, w1) ->
  list_buckets s3 w1 = (Raised e, w2) ->
  StorageSimulator.create_s3_bucket w
    = (Normal tt, w2,
       [ Print "Creating S3 bucket...";
         Call (Boto3Client StorageSimulator.s3_config) None;
         Call ListBuckets (Some e);
         Print ("❌ S3 Error: " +:+ exc_str e) ]) /\
  calls (trace (StorageSimulator.create_s3_bucket w))
    = [ Boto3Client StorageSimulator.s3_config; ListBuckets ] /\
  stdout (trace (StorageSimulator.create_s3_bucket w))
    = [ "Creating S3 bucket..."; "❌ S3 Error: " +:+ exc_str e ].
Proof.
  intros Hclient Hlist.
  assert (StorageSimulator.create_s3_bucket w
    = (Normal tt, w2,
       [ Print "Creating S3 bucket...";
         Call (Boto3Client StorageSimulator.s3_config) None;
         Call ListBuckets (Some e);
         Print ("❌ S3 Error: " +:+ exc_str e) ])) as Hrun.
  { py_unfold. rewrite Hclient. cbn. rewrite Hlist. reflexivity. }
  rewrite Hrun. repeat split.
Qed.

(** C9. Whenever the bucket is ensured ([create_bucket] returned, or
    raised an error classified as already-exists), [put_object] is called
    next with the fixed bucket, key and body, on the state the creation
    attempt left, and what it leaves is the final state: a run against an
    existing bucket uploads again. *)
Theorem sim_s3_uploads_on_every_run
    (w w1 w2 w3 : Emulator) (s3 : S3Client) (response : PyDict) (buckets : string)
    (created : Completion unit) :
  boto3_client StorageSimulator.s3_config w = (Normal s3, w1) ->
  list_buckets s3 w1 = (Normal response, w2) ->
  response !! "Buckets" = Some buckets ->
  create_bucket s3 "test-bucket" w2 = (created, w3) ->
  created = Normal tt \/ (exists e, created = Raised e /\ s3_already_exists e = true) ->
  let upload := put_object s3 "test-bucket" "test_file_boto.txt" "Hello Boto3" w3 in
  trace (StorageSimulator.create_s3_bucket w) !! 6
    = Some (Call upload_call (raised_exc (fst upload))) /\
  final (StorageSimulator.create_s3_bucket w) = snd upload.
Proof.
  intros Hclient Hlist Hkey Hcreate Hensured. cbv zeta.
  py_unfold. rewrite Hclient. cbn. rewrite Hlist. cbn. rewrite Hkey. cbn.
  rewrite Hcreate.
  destruct Hensured as [-> | (e & -> & Hyes)]; cbn.
  - destruct (put_object _ _ _ _ _) as [[[]|?] ?]; cbn; split; reflexivity.
  - unfold s3_already_exists in Hyes. rewrite Hyes. cbn.
    destruct (put_object _ _ _ _ _) as [[[]|?] ?]; cbn; split; reflexivity.
Qed.

(** *** The stored object *)

Section Stored.
(** What an emulator holds under a key of a bucket, and the contract of a
    successful [put_object]. *)
Variable stored : Emulator -> string -> string -> option string.
Hypothesis put_object_stores :
  forall s3 b k body w w',
    put_object s3 b k body w = (Normal tt, w') -> stored w' b k = Some body.

(** C4. A run of [create_s3_bucket] that does not end in its error path
    leaves the object [test_file_boto.txt] with body [Hello Boto3] in
    [test-bucket], and its last printed line is the upload success
    message. *)
Theorem sim_s3_object_stored (w : Emulator) :
  ~ s3_error_path (trace (StorageSimulator.create_s3_bucket w)) ->
  stored (final (StorageSimulator.create_s3_bucket w))
    "test-bucket" "test_file_boto.txt" = Some "Hello Boto3" /\
  last (trace (StorageSimulator.create_s3_bucket w))
    = Some (Print "✅ S3 Upload successful via Boto3").
Proof.
  unfold s3_error_path. py_run; intros Hpath.
  all: try (exfalso; apply Hpath; eexists; reflexivity).
  all: split; [eapply put_object_stores; eassumption | reflexivity].
Qed.

End Stored.

End SimulatorS3.

Lemma last_of_report {A} (t : list A) (i : nat) (x : A) :
  t !! S i = Some x -> length t = S (S i) -> last t = Some x.
Proof. intros Hx Hlen. rewrite last_lookup, Hlen. exact Hx. Qed.

(** C5, as the code has it.  [create_s3_bucket] of the storage-simulator
    script calls the SDK in the order client, [list_buckets],
    [create_bucket], [put_object] (a run makes an initial part of that
    sequence); an unclassified creation error and an upload error are both
    answered by the one S3 error report, which ends the run, so with the
    same error text both runs end with the same printed line and the same
    result.  The output as a whole still tells them apart: a creation
    failure makes three [print] calls, an upload failure four, the third
    printing the created or already-exists line. *)
Theorem sim_s3_order_and_one_error_path
    (sdk1 sdk2 : SDK) (w1 : @Emulator sdk1) (w2 : @Emulator sdk2)
    (i1 i2 : nat) (e1 e2 : PyException) :
  let r1 := @StorageSimulator.create_s3_bucket sdk1 w1 in
  let r2 := @StorageSimulator.create_s3_bucket sdk2 w2 in
  calls (trace r1) `prefix_of` sim_s3_calls /\
  (trace r1 !! i1 = Some (Call (CreateBucket "test-bucket") (Some e1)) ->
   s3_already_exists e1 = false ->
     trace r1 !! S i1 = Some (Print ("❌ S3 Error: " +:+ exc_str e1)) /\
     length (trace r1) = S (S i1) /\
     exists buckets,
       stdout (trace r1)
       = [ "Creating S3 bucket..."; "Buckets: " +:+ buckets;
           "❌ S3 Error: " +:+ exc_str e1 ]) /\
  (trace r2 !! i2 = Some (Call upload_call (Some e2)) ->
     trace r2 !! S i2 = Some (Print ("❌ S3 Error: " +:+ exc_str e2)) /\
     length (trace r2) = S (S i2) /\
     exists buckets status,
       stdout (trace r2)
       = [ "Creating S3 bucket..."; "Buckets: " +:+ buckets; status;
           "❌ S3 Error: " +:+ exc_str e2 ] /\
       (status = "✅ S3 Bucket 'test-bucket' created" \/
        status = "ℹ️ S3 Bucket already exists")) /\
  (trace r1 !! i1 = Some (Call (CreateBucket "test-bucket") (Some e1)) ->
   s3_already_exists e1 = false ->
   trace r2 !! i2 = Some (Call upload_call (Some e2)) ->
   exc_str e1 = exc_str e2 ->
     last (trace r1) = last (trace r2) /\ result r1 = result r2).
Proof.
  cbv zeta.
  assert (Hcreate :
    trace (@StorageSimulator.create_s3_bucket sdk1 w1) !! i1
      = Some (Call (CreateBucket "test-bucket") (Some e1)) ->
    s3_already_exists e1 = false ->
    trace (@StorageSimulator.create_s3_bucket sdk1 w1) !! S i1
      = Some (Print ("❌ S3 Error: " +:+ exc_str e1)) /\
    length (trace (@StorageSimulator.create_s3_bucket sdk1 w1)) = S (S i1)).
  { intros H Hno. apply (sim_s3_one_report w1 i1 _ e1 H).
    right. split; [reflexivity | exact Hno]. }
  assert (Hupload :
    trace (@StorageSimulator.create_s3_bucket sdk2 w2) !! i2
      = Some (Call upload_call (Some e2)) ->
    trace (@StorageSimulator.create_s3_bucket sdk2 w2) !! S i2
      = Some (Print ("❌ S3 Error: " +:+ exc_str e2)) /\
    length (trace (@StorageSimulator.create_s3_bucket sdk2 w2)) = S (S i2)).
  { intros H. apply (sim_s3_one_report w2 i2 _ e2 H). left. reflexivity. }
  split; [apply sim_s3_call_order |]. split; [| split].
  - intros H Hno. destruct (Hcreate H Hno) as [Hl Hn].
    split; [exact Hl |]. split; [exact Hn |].
    exact (sim_s3_creation_failure_output w1 i1 e1 H Hno).
  - intros H. destruct (Hupload H) as [Hl Hn].
    split; [exact Hl |]. split; [exact Hn |].
    exact (sim_s3_upload_failure_output w2 i2 e2 H).
  - intros H1 Hno H2 Htext.
    destruct (Hcreate H1 Hno) as [Hl1 Hn1]. destruct (Hupload H2) as [Hl2 Hn2].
    split.
    + rewrite (last_of_report _ _ _ Hl1 Hn1), (last_of_report _ _ _ Hl2 Hn2), Htext.
      reflexivity.
    + rewrite sim_s3_returns, sim_s3_returns. reflexivity.
Qed.

(** ** The script as a whole *)

Section Main.
Context `{sdk : SDK}.

Lemma root_main_sequence (w : Emulator) :
  Root.main w
    = (Normal tt,
       final (Root.create_azure_container (final (Root.create_s3_bucket w))),
       trace (Root.create_s3_bucket w)
       ++ trace (Root.create_azure_container (final (Root.create_s3_bucket w)))).
Proof.
  unfold Root.main. rewrite (bind_returns _ _ _ _ (root_s3_returns w)).
  rewrite root_azure_returns. reflexivity.
Qed.

Lemma sim_main_sequence (w : Emulator) :
  StorageSimulator.main w
    = (Normal tt,
       final (StorageSimulator.create_azure_container
                (final (StorageSimulator.create_s3_bucket w))),
       trace (StorageSimulator.create_s3_bucket w)
       ++ trace (StorageSimulator.create_azure_container
                   (final (StorageSimulator.create_s3_bucket w)))).
Proof.
  unfold StorageSimulator.main. rewrite (bind_returns _ _ _ _ (sim_s3_returns w)).
  rewrite sim_azure_returns. reflexivity.
Qed.

(** *** Two separate services *)

Section Separate.
(** The part of the state the blob service lives in: the S3 calls leave
    it alone, and the blob calls see and change nothing else. *)
Variable View : Type.
Variable blob_view : Emulator -> View.
Hypothesis client_frame :
  forall cfg w, blob_view (snd (boto3_client cfg w)) = blob_view w.
Hypothesis list_frame :
  forall s3 w, blob_view (snd (list_buckets s3 w)) = blob_view w.
Hypothesis create_frame :
  forall s3 b w, blob_view (snd (create_bucket s3 b w)) = blob_view w.
Hypothesis put_frame :
  forall s3 b k v w, blob_view (snd (put_object s3 b k v w)) = blob_view w.
Hypothesis connect_local :
  forall cs w w', blob_view w = blob_view w' ->
    fst (from_connection_string cs w) = fst (from_connection_string cs w') /\
    blob_view (snd (from_connection_string cs w))
      = blob_view (snd (from_connection_string cs w')).
Hypothesis container_client_local :
  forall b n w w', blob_view w = blob_view w' ->
    fst (get_container_client b n w) = fst (get_container_client b n w') /\
    blob_view (snd (get_container_client b n w))
      = blob_view (snd (get_container_client b n w')).
Hypothesis create_container_local :
  forall c w w', blob_view w = blob_view w' ->
    fst (create_container c w) = fst (create_container c w') /\
    blob_view (snd (create_container c w))
      = blob_view (snd (create_container c w')).

Ltac framed :=
  repeat match goal with
         | H : boto3_client ?c ?w = (_, ?w') |- _ =>
             let F := fresh "F" in
             pose proof (client_frame c w) as F; rewrite H in F; cbn in F; clear H
         | H : list_buckets ?c ?w = (_, ?w') |- _ =>
             let F := fresh "F" in
             pose proof (list_frame c w) as F; rewrite H in F; cbn in F; clear H
         | H : create_bucket ?c ?b ?w = (_, ?w') |- _ =>
             let F := fresh "F" in
             pose proof (create_frame c b w) as F; rewrite H in F; cbn in F; clear H
         | H : put_object ?c ?b ?k ?v ?w = (_, ?w') |- _ =>
             let F := fresh "F" in
             pose proof (put_frame c b k v w) as F; rewrite H in F; cbn in F; clear H
         end;
  congruence.

Lemma root_s3_frame (w : Emulator) :
  blob_view (final (Root.create_s3_bucket w)) = blob_view w.
Proof. py_run; framed. Qed.

Lemma sim_s3_frame (w : Emulator) :
  blob_view (final (StorageSimulator.create_s3_bucket w)) = blob_view w.
Proof. py_run; framed. Qed.

Lemma root_azure_local (w w' : Emulator) :
  blob_view w = blob_view w' ->
  trace (Root.create_azure_container w) = trace (Root.create_azure_container w').
Proof.
  intros Hv. py_unfold.
  destruct (connect_local Root.connection_string w w' Hv) as [Hr Hv1].
  destruct (from_connection_string _ w) as [[b|?] w1],
           (from_connection_string _ w') as [[b'|?] w1']; cbn in *; try congruence.
  injection Hr as <-.
  destruct (container_client_local b "test-container" w1 w1' Hv1) as [Hr Hv2].
  destruct (get_container_client _ _ w1) as [[c|?] w2],
           (get_container_client _ _ w1') as [[c'|?] w2']; cbn in *; try congruence.
  injection Hr as <-.
  destruct (create_container_local c w2 w2' Hv2) as [Hr Hv3].
  destruct (create_container _ w2) as [[[]|?] w3],
           (create_container _ w2') as [[[]|?] w3']; cbn in *; try congruence.
  injection Hr as <-. destruct (py_in _ _); reflexivity.
Qed.

Lemma sim_azure_local (w w' : Emulator) :
  blob_view w = blob_view w' ->
  trace (StorageSimulator.create_azure_container w)
    = trace (StorageSimulator.create_azure_container w').
Proof.
  intros Hv. py_unfold.
  destruct (connect_local StorageSimulator.connection_string w w' Hv) as [Hr Hv1].
  destruct (from_connection_string _ w) as [[b|?] w1],
           (from_connection_string _ w') as [[b'|?] w1']; cbn in *; try congruence.
  injection Hr as <-.
  destruct (container_client_local b "test-container" w1 w1' Hv1) as [Hr Hv2].
  destruct (get_container_client _ _ w1) as [[c|?] w2],
           (get_container_client _ _ w1') as [[c'|?] w2']; cbn in *; try congruence.
  injection Hr as <-.
  destruct (create_container_local c w2 w2' Hv2) as [Hr Hv3].
  destruct (create_container _ w2) as [[[]|?] w3],
           (create_container _ w2') as [[[]|?] w3']; cbn in *; try congruence.
  injection Hr as <-. destruct (py_in _ _); reflexivity.
Qed.

(** C7. Run as a script, [create_s3_bucket] runs first and to its end,
    then [create_azure_container] runs, always: the events of [main] are
    those of the S3 step followed by those of the Azure step, whatever the
    S3 step met.  The Azure step takes nothing from the S3 step: with the
    two services separate, it does exactly what it does when run alone
    from the initial state. *)
Theorem main_runs_s3_then_azure (w : Emulator) :
  (Root.main w
     = (Normal tt,
        final (Root.create_azure_container (final (Root.create_s3_bucket w))),
        trace (Root.create_s3_bucket w)
        ++ trace (Root.create_azure_container (final (Root.create_s3_bucket w)))) /\
   trace (Root.main w)
     = trace (Root.create_s3_bucket w) ++ trace (Root.create_azure_container w)) /\
  (StorageSimulator.main w
     = (Normal tt,
        final (StorageSimulator.create_azure_container
                 (final (StorageSimulator.create_s3_bucket w))),
        trace (StorageSimulator.create_s3_bucket w)
        ++ trace (StorageSimulator.create_azure_container
                    (final (StorageSimulator.create_s3_bucket w)))) /\
   trace (StorageSimulator.main w)
     = trace (StorageSimulator.create_s3_bucket w)
       ++ trace (StorageSimulator.create_azure_container w)).
Proof.
  split; split.
  - apply root_main_sequence.
  - rewrite root_main_sequence. cbn [trace snd]. f_equal.
    apply root_azure_local, root_s3_frame.
  - apply sim_main_sequence.
  - rewrite sim_main_sequence. cbn [trace snd]. f_equal.
    apply sim_azure_local, sim_s3_frame.
Qed.

End Separate.
End Main.

(** ** Runs against an existing bucket *)

Section ExistingBucket.
Context `{sdk : SDK}.

(** C3. [create_s3_bucket] of the root script has no test for an
    existing bucket: when [create_bucket] raises, whatever the text of the
    error, the function returns normally after printing the S3 error
    report, and the already-exists notice is not among its lines. *)
Theorem root_s3_existing_bucket_is_an_error
    (w w1 w2 : Emulator) (s3 : S3Client) (e : PyException) :
  boto3_client Root.s3_config w = (Normal s3, w1) ->
  create_bucket s3 "test-bucket" w1 = (Raised e, w2) ->
  result (Root.create_s3_bucket w) = Normal tt /\
  stdout (trace (Root.create_s3_bucket w))
    = [ "Creating S3 bucket..."; "❌ S3 Error: " +:+ exc_str e ] /\
  forall line, line ∈ stdout (trace (Root.create_s3_bucket w)) ->
    ~ already_exists_notice line.
Proof.
  intros Hclient Hcreate.
  assert (Root.create_s3_bucket w
    = (Normal tt, w2,
       [ Print "Creating S3 bucket...";
         Call (Boto3Client Root.s3_config) None;
         Call (CreateBucket "test-bucket") (Some e);
         Print ("❌ S3 Error: " +:+ exc_str e) ])) as Hrun.
  { py_unfold. rewrite Hclient. cbn. rewrite Hcreate. reflexivity. }
  rewrite Hrun. split; [reflexivity |]. split; [reflexivity |].
  intros line Hin [Hn | Hn]; subst line; cbn in Hin.
  all: rewrite !elem_of_cons, elem_of_nil in Hin.
  all: destruct Hin as [Hin | [Hin | []]]; cbv [String.append] in Hin; discriminate Hin.
Qed.

(** The storage-simulator script does have the test: against the same
    failure it prints the notice and goes on. *)
Lemma sim_s3_existing_bucket_is_noticed
    (w w1 w2 w3 : Emulator) (s3 : S3Client) (response : PyDict) (buckets : string)
    (e : PyException) :
  boto3_client StorageSimulator.s3_config w = (Normal s3, w1) ->
  list_buckets s3 w1 = (Normal response, w2) ->
  response !! "Buckets" = Some buckets ->
  create_bucket s3 "test-bucket" w2 = (Raised e, w3) ->
  s3_already_exists e = true ->
  stdout (trace (StorageSimulator.create_s3_bucket w)) !! 2
    = Some "ℹ️ S3 Bucket already exists".
Proof.
  intros Hclient Hlist Hkey Hcreate Hyes. unfold s3_already_exists in Hyes.
  py_unfold. rewrite Hclient. cbn. rewrite Hlist. cbn. rewrite Hkey. cbn.
  rewrite Hcreate. cbn. rewrite Hyes.
  destruct (put_object _ _ _ _ _) as [[[]|?] ?]; reflexivity.
Qed.

End ExistingBucket.

(** ** The statements at work on the two SDK instances *)

Lemma emu_put_object_stores (c : S3Config) (b k body : string) (w w' : Services) :
  emu_put_object c b k body w = (Normal tt, w') -> emu_object w' b k = Some body.
Proof.
  unfold emu_put_object, emu_object.
  destruct (s3_up w); [| discriminate].
  destruct (s3_buckets w !! b) as [objs|]; [| discriminate].
  intros H; injection H as <-. cbn. by simplify_map_eq.
Qed.

Lemma root_s3_existing_bucket_witness :
  stdout (trace (@Root.create_s3_bucket emulator_sdk stale))
  = [ "Creating S3 bucket...";
      "❌ S3 Error: An error occurred (BucketAlreadyExists) when calling the CreateBucket operation: The requested bucket name is not available." ].
Proof.
  exact (proj1 (proj2
    (@root_s3_existing_bucket_is_an_error emulator_sdk stale stale stale
       Root.s3_config BucketAlreadyExists eq_refl eq_refl))).
Defined.


(** First run on fresh emulators: the object is there. *)
Lemma sim_s3_object_stored_witness :
  emu_object (final (@StorageSimulator.create_s3_bucket emulator_sdk fresh))
    "test-bucket" "test_file_boto.txt" = Some "Hello Boto3" /\
  last (trace (@StorageSimulator.create_s3_bucket emulator_sdk fresh))
    = Some (Print "✅ S3 Upload successful via Boto3").
Proof.
  apply (@sim_s3_object_stored emulator_sdk emu_object emu_put_object_stores fresh).
  intros [e He]. vm_compute in He. discriminate He.
Defined.

(** The same internal error, once from [create_bucket] and once from
    [put_object]: the runs end with the same line. *)
Lemma sim_s3_order_and_one_error_path_witness :
  last (trace (@StorageSimulator.create_s3_bucket
                 (canned_sdk (create_bucket_fails InternalError)) tt))
  = last (trace (@StorageSimulator.create_s3_bucket
                   (canned_sdk (put_object_fails InternalError)) tt)) /\
  result (@StorageSimulator.create_s3_bucket
            (canned_sdk (create_bucket_fails InternalError)) tt)
  = result (@StorageSimulator.create_s3_bucket
              (canned_sdk (put_object_fails InternalError)) tt).
Proof.
  apply (proj2 (proj2 (proj2
    (sim_s3_order_and_one_error_path
       (canned_sdk (create_bucket_fails InternalError))
       (canned_sdk (put_object_fails InternalError))
       tt tt 4 6 InternalError InternalError)))); reflexivity.
Defined.

(** The same internal error from [create_bucket] and from [put_object]:
    the printed outputs differ, the upload failure having the created line
    before the error line. *)
Lemma sim_s3_failures_told_apart :
  trace (@StorageSimulator.create_s3_bucket
           (canned_sdk (create_bucket_fails InternalError)) tt) !! 4
    = Some (Call (CreateBucket "test-bucket") (Some InternalError)) /\
  trace (@StorageSimulator.create_s3_bucket
           (canned_sdk (put_object_fails InternalError)) tt) !! 6
    = Some (Call upload_call (Some InternalError)) /\
  stdout (trace (@StorageSimulator.create_s3_bucket
                   (canned_sdk (create_bucket_fails InternalError)) tt))
  <> stdout (trace (@StorageSimulator.create_s3_bucket
                      (canned_sdk (put_object_fails InternalError)) tt)).
Proof.
  split; [reflexivity |]. split; [reflexivity |].
  intros H. vm_compute in H. discriminate H.
Qed.

(** A connection string the SDK refuses, a container client that cannot
    be obtained, and a blob service that is down, on both scripts. *)
Lemma azure_handle_errors_reported_apart_witness :
  @ends_reporting
    (canned_sdk (from_connection_string_fails
                   (ValueError "Connection string is either blank or malformed.")))
    (@Root.create_azure_container
       (canned_sdk (from_connection_string_fails
                      (ValueError "Connection string is either blank or malformed."))) tt)
    tt [ Print "Creating Azure container..." ]
    (FromConnectionString Root.connection_string)
    (ValueError "Connection string is either blank or malformed.")
    "❌ Azure Script Error: Connection string is either blank or malformed." /\
  @ends_reporting (canned_sdk (get_container_client_fails InternalError))
    (@StorageSimulator.create_azure_container
       (canned_sdk (get_container_client_fails InternalError)) tt)
    tt [ Print "Creating Azure container...";
         Call (FromConnectionString Root.connection_string) None ]
    (GetContainerClient "test-container") InternalError
    ("❌ Azure Script Error: " +:+ exc_str InternalError) /\
  @ends_reporting emulator_sdk (@Root.create_azure_container emulator_sdk down)
    down [ Print "Creating Azure container...";
           Call (FromConnectionString Root.connection_string) None;
           Call (GetContainerClient "test-container") None ]
    CreateContainer ServiceRequestError
    "❌ Azure Error: Cannot connect to host localhost:10000" /\
  @ends_reporting emulator_sdk (@StorageSimulator.create_azure_container emulator_sdk down)
    down [ Print "Creating Azure container...";
           Call (FromConnectionString Root.connection_string) None;
           Call (GetContainerClient "test-container") None ]
    CreateContainer ServiceRequestError
    "❌ Azure Error: Cannot connect to host localhost:10000".
Proof.
  split; [| split; [| split]].
  - exact (proj1 (@azure_handle_errors_reported_apart
                    (canned_sdk (from_connection_string_fails
                       (ValueError "Connection string is either blank or malformed.")))
                    (@Root.create_azure_container _) tt
                    (ValueError "Connection string is either blank or malformed.")
                    (or_introl eq_refl))
             tt eq_refl).
  - exact (proj1 (proj2 (@azure_handle_errors_reported_apart
                           (canned_sdk (get_container_client_fails InternalError))
                           (@StorageSimulator.create_azure_container _) tt InternalError
                           (or_intror eq_refl)))
             tt tt tt eq_refl eq_refl).
  - exact (proj1 (proj2 (proj2 (@azure_handle_errors_reported_apart emulator_sdk
                                  (@Root.create_azure_container _) down
                                  ServiceRequestError (or_introl eq_refl))))
             tt down "test-container" down down eq_refl eq_refl eq_refl eq_refl).
  - exact (proj1 (proj2 (proj2 (@azure_handle_errors_reported_apart emulator_sdk
                                  (@StorageSimulator.create_azure_container _) down
                                  ServiceRequestError (or_intror eq_refl))))
             tt down "test-container" down down eq_refl eq_refl eq_refl eq_refl).
Defined.

(** Unreachable endpoints: each of the four provisioners reports the
    connection error of its first remote call and returns; and an upload
    that fails after the bucket was created. *)
Lemma no_exception_escapes_witness :
  @ends_reporting emulator_sdk (@Root.create_s3_bucket emulator_sdk down) down
    [ Print "Creating S3 bucket..."; Call (Boto3Client Root.s3_config) None ]
    (CreateBucket "test-bucket") (EndpointConnectionError "http://127.0.0.1:8333")
    "❌ S3 Error: Could not connect to the endpoint URL: http://127.0.0.1:8333" /\
  @ends_reporting emulator_sdk (@StorageSimulator.create_s3_bucket emulator_sdk down) down
    [ Print "Creating S3 bucket..."; Call (Boto3Client StorageSimulator.s3_config) None ]
    ListBuckets (EndpointConnectionError "http://localhost:8333")
    "❌ S3 Error: Could not connect to the endpoint URL: http://localhost:8333" /\
  @ends_reporting emulator_sdk (@Root.create_azure_container emulator_sdk down) down
    [ Print "Creating Azure container...";
      Call (FromConnectionString Root.connection_string) None;
      Call (GetContainerClient "test-container") None ]
    CreateContainer ServiceRequestError
    "❌ Azure Error: Cannot connect to host localhost:10000" /\
  @ends_reporting emulator_sdk (@StorageSimulator.create_azure_container emulator_sdk down)
    down
    [ Print "Creating Azure container...";
      Call (FromConnectionString Root.connection_string) None;
      Call (GetContainerClient "test-container") None ]
    CreateContainer ServiceRequestError
    "❌ Azure Error: Cannot connect to host localhost:10000" /\
  @ends_reporting (canned_sdk (put_object_fails InternalError))
    (@StorageSimulator.create_s3_bucket (canned_sdk (put_object_fails InternalError)) tt) tt
    [ Print "Creating S3 bucket..."; Call (Boto3Client StorageSimulator.s3_config) None;
      Call ListBuckets None; Print "Buckets: []";
      Call (CreateBucket "test-bucket") None;
      Print "✅ S3 Bucket 'test-bucket' created" ]
    upload_call InternalError ("❌ S3 Error: " +:+ exc_str InternalError).
Proof.
  split; [| split; [| split; [| split]]].
  - destruct (@no_exception_escapes emulator_sdk down
                (EndpointConnectionError "http://127.0.0.1:8333"))
      as (_ & _ & [_ Hcreate] & _ & _).
    exact (Hcreate Root.s3_config down down eq_refl eq_refl).
  - destruct (@no_exception_escapes emulator_sdk down
                (EndpointConnectionError "http://localhost:8333"))
      as (_ & _ & _ & (_ & Hlist & _ & _) & _).
    exact (Hlist StorageSimulator.s3_config down down eq_refl eq_refl).
  - destruct (@no_exception_escapes emulator_sdk down ServiceRequestError)
      as (_ & _ & _ & _ & Hazure).
    destruct (Hazure (@Root.create_azure_container _) (or_introl eq_refl))
      as (_ & _ & Hcreate).
    exact (Hcreate tt down "test-container" down down eq_refl eq_refl eq_refl eq_refl).
  - destruct (@no_exception_escapes emulator_sdk down ServiceRequestError)
      as (_ & _ & _ & _ & Hazure).
    destruct (Hazure (@StorageSimulator.create_azure_container _) (or_intror eq_refl))
      as (_ & _ & Hcreate).
    exact (Hcreate tt down "test-container" down down eq_refl eq_refl eq_refl eq_refl).
  - destruct (@no_exception_escapes (canned_sdk (put_object_fails InternalError)) tt
                InternalError)
      as (_ & _ & _ & (_ & _ & _ & Hupload) & _).
    exact (Hupload tt tt {[ "Buckets" := "[]" ]} tt "[]" (Normal tt) tt tt
             eq_refl eq_refl eq_refl eq_refl (or_introl eq_refl) eq_refl).
Defined.

(** The emulator pair keeps the two services apart. *)
Lemma main_runs_s3_then_azure_witness :
  trace (@Root.main emulator_sdk stale)
  = trace (@Root.create_s3_bucket emulator_sdk stale)
    ++ trace (@Root.create_azure_container emulator_sdk stale) /\
  trace (@StorageSimulator.main emulator_sdk down)
  = trace (@StorageSimulator.create_s3_bucket emulator_sdk down)
    ++ trace (@StorageSimulator.create_azure_container emulator_sdk down).
Proof.
  assert (Hconnect : forall (cs : string) (w w' : Services),
    emu_blob_view w = emu_blob_view w' ->
    fst (emu_from_connection_string cs w) = fst (emu_from_connection_string cs w') /\
    emu_blob_view (snd (emu_from_connection_string cs w))
      = emu_blob_view (snd (emu_from_connection_string cs w'))).
  { intros cs w w' Hv. unfold emu_from_connection_string.
    destruct (py_in _ _ && py_in _ _); (split; [reflexivity | exact Hv]). }
  assert (Hcreate : forall (c : string) (w w' : Services),
    emu_blob_view w = emu_blob_view w' ->
    fst (emu_create_container c w) = fst (emu_create_container c w') /\
    emu_blob_view (snd (emu_create_container c w))
      = emu_blob_view (snd (emu_create_container c w'))).
  { intros c [u bs up cs] [u' bs' up' cs'] Hv.
    unfold emu_blob_view in Hv. cbn in Hv. injection Hv as -> ->.
    unfold emu_create_container, emu_blob_view. cbn.
    destruct up'; [| split; reflexivity].
    destruct (decide (c ∈ cs')); split; reflexivity. }
  split.
  - apply (fun H1 H2 H3 H4 =>
      proj2 (proj1 (@main_runs_s3_then_azure emulator_sdk _ emu_blob_view
                      H1 H2 H3 H4 Hconnect (fun _ _ _ _ Hv => conj eq_refl Hv)
                      Hcreate stale))).
    + reflexivity.
    + intros c w. cbn. unfold emu_list_buckets. destruct (s3_up w); reflexivity.
    + intros c b w. cbn. unfold emu_create_bucket.
      destruct (s3_up w); [destruct (s3_buckets w !! b) |]; reflexivity.
    + intros c b k v w. cbn. unfold emu_put_object.
      destruct (s3_up w); [destruct (s3_buckets w !! b) |]; reflexivity.
  - apply (fun H1 H2 H3 H4 =>
      proj2 (proj2 (@main_runs_s3_then_azure emulator_sdk _ emu_blob_view
                      H1 H2 H3 H4 Hconnect (fun _ _ _ _ Hv => conj eq_refl Hv)
                      Hcreate down))).
    + reflexivity.
    + intros c w. cbn. unfold emu_list_buckets. destruct (s3_up w); reflexivity.
    + intros c b w. cbn. unfold emu_create_bucket.
      destruct (s3_up w); [destruct (s3_buckets w !! b) |]; reflexivity.
    + intros c b k v w. cbn. unfold emu_put_object.
      destruct (s3_up w); [destruct (s3_buckets w !! b) |]; reflexivity.
Defined.

(** The S3 endpoint is down: the listing is the first call to fail. *)
Lemma sim_s3_list_failure_stops_witness :
  @StorageSimulator.create_s3_bucket emulator_sdk down
  = (Normal tt, down,
     [ Print "Creating S3 bucket...";
       Call (Boto3Client StorageSimulator.s3_config) None;
       Call ListBuckets (Some (EndpointConnectionError "http://localhost:8333"));
       Print "❌ S3 Error: Could not connect to the endpoint URL: http://localhost:8333" ]).
Proof.
  exact (proj1
    (@sim_s3_list_failure_stops emulator_sdk down down down StorageSimulator.s3_config
       (EndpointConnectionError "http://localhost:8333") eq_refl eq_refl)).
Defined.

(** The bucket exists and holds an older object: the run uploads again
    and the object has the fixed body afterwards. *)
Lemma sim_s3_uploads_on_every_run_witness :
  trace (@StorageSimulator.create_s3_bucket emulator_sdk stale) !! 6
    = Some (Call upload_call None) /\
  emu_object stale "test-bucket" "test_file_boto.txt" = Some "old body" /\
  emu_object (final (@StorageSimulator.create_s3_bucket emulator_sdk stale))
    "test-bucket" "test_file_boto.txt" = Some "Hello Boto3".
Proof.
  destruct (@sim_s3_uploads_on_every_run emulator_sdk stale stale stale stale
              StorageSimulator.s3_config
              {[ "Buckets" := buckets_repr (s3_buckets stale) ]}
              (buckets_repr (s3_buckets stale))
              (Raised BucketAlreadyExists)
              eq_refl eq_refl eq_refl eq_refl
              (or_intror (ex_intro _ BucketAlreadyExists (conj eq_refl eq_refl))))
    as [Hcall Hfinal].
  split; [exact Hcall |]. split; [reflexivity |].
  rewrite Hfinal. reflexivity.
Defined.

(** ** Sample runs *)

(** Both endpoints down: each step reports its error and the script ends
    normally. *)
Example root_main_endpoints_down :
  result (@Root.main emulator_sdk down) = Normal tt /\
  stdout (trace (@Root.main emulator_sdk down))
  = [ "Creating S3 bucket...";
      "❌ S3 Error: Could not connect to the endpoint URL: http://127.0.0.1:8333";
      "Creating Azure container...";
      "❌ Azure Error: Cannot connect to host localhost:10000" ].
Proof. split; reflexivity. Qed.

(** First run of the storage-simulator script on fresh emulators. *)
Example sim_main_first_run :
  stdout (trace (@StorageSimulator.main emulator_sdk fresh))
  = [ "Creating S3 bucket...";
      "Buckets: []";
      "✅ S3 Bucket 'test-bucket' created";
      "✅ S3 Upload successful via Boto3";
      "Creating Azure container...";
      "✅ Azure Container 'test-container' created" ].
Proof. reflexivity. Qed.

(** Second run: both resources exist, nothing is reported as an error. *)
Example sim_main_second_run :
  stdout (trace (@StorageSimulator.main emulator_sdk
                   (final (@StorageSimulator.main emulator_sdk fresh))))
  = [ "Creating S3 bucket...";
      "Buckets: [{'Name': 'test-bucket'}]";
      "ℹ️ S3 Bucket already exists";
      "✅ S3 Upload successful via Boto3";
      "Creating Azure container...";
      "ℹ️ Azure Container already exists" ].
Proof. reflexivity. Qed.

(** Second run of the root script: the existing bucket is an error, the
    existing container a notice. *)
Example root_main_second_run :
  stdout (trace (@Root.main emulator_sdk (final (@Root.main emulator_sdk fresh))))
  = [ "Creating S3 bucket...";
      "❌ S3 Error: An error occurred (BucketAlreadyExists) when calling the CreateBucket operation: The requested bucket name is not available.";
      "Creating Azure container...";
      "ℹ️ Azure Container already exists" ].
Proof. reflexivity. Qed.

(** A listing without its ['Buckets'] entry: the [KeyError] takes the
    error path too. *)
Example sim_s3_missing_buckets_key :
  stdout (trace (@StorageSimulator.create_s3_bucket (canned_sdk no_buckets_key) tt))
  = [ "Creating S3 bucket..."; "❌ S3 Error: 'Buckets'" ].
Proof. reflexivity. Qed.

(** * Further properties of the scripts *)

Ltac differ H := cbv [String.append String.concat] in H; discriminate H.

Section Outputs.
Context `{sdk : SDK}.

(** ** What is called, and in which order *)

Lemma root_s3_call_order (w : Emulator) :
  calls (trace (Root.create_s3_bucket w)) `prefix_of` root_s3_calls.
Proof.
  unfold root_s3_calls. py_run; cbn.
  all: repeat first [ apply prefix_nil | reflexivity | apply prefix_cons ].
Qed.

Lemma azure_call_order (w : Emulator) :
  calls (trace (Root.create_azure_container w)) `prefix_of` azure_calls /\
  calls (trace (StorageSimulator.create_azure_container w)) `prefix_of` azure_calls.
Proof.
  unfold azure_calls. split; py_run; cbn.
  all: repeat first [ apply prefix_nil | reflexivity | apply prefix_cons ].
Qed.

Lemma elem_of_prefix {A} (l k : list A) (x : A) :
  l `prefix_of` k -> x ∈ l -> x ∈ k.
Proof. intros [m ->] Hx. apply elem_of_app. left. exact Hx. Qed.

(** X1. The SDK calls of a run are an initial part of the provisioner's
    program order: client then [create_bucket] for the root script's S3
    step; connection, container client, [create_container] for the Azure
    step of both scripts.  So the root script never lists buckets and never
    uploads, and the Azure step makes no S3 call. *)
Theorem calls_follow_program_order (w : Emulator) :
  calls (trace (Root.create_s3_bucket w)) `prefix_of` root_s3_calls /\
  calls (trace (Root.create_azure_container w)) `prefix_of` azure_calls /\
  calls (trace (StorageSimulator.create_azure_container w)) `prefix_of` azure_calls /\
  (forall c, c ∈ calls (trace (Root.create_s3_bucket w)) ->
     c <> ListBuckets /\ forall b k body, c <> PutObject b k body) /\
  (forall c, c ∈ calls (trace (Root.create_azure_container w)) \/
             c ∈ calls (trace (StorageSimulator.create_azure_container w)) ->
     (forall cfg, c <> Boto3Client cfg) /\ c <> ListBuckets /\
     (forall b, c <> CreateBucket b) /\ forall b k body, c <> PutObject b k body).
Proof.
  destruct (azure_call_order w) as [Hroot Hsim].
  split; [apply root_s3_call_order |]. split; [exact Hroot |]. split; [exact Hsim |].
  split.
  - intros c Hc. apply (elem_of_prefix _ _ _ (root_s3_call_order w)) in Hc.
    unfold root_s3_calls in Hc. rewrite !elem_of_cons, elem_of_nil in Hc.
    destruct Hc as [-> | [-> | []]]; split; intros; discriminate.
  - intros c Hc.
    assert (c ∈ azure_calls) as Hin.
    { destruct Hc as [Hc | Hc]; eapply elem_of_prefix; eauto. }
    unfold azure_calls in Hin. rewrite !elem_of_cons, elem_of_nil in Hin.
    destruct Hin as [-> | [-> | [-> | []]]]; repeat split; intros; discriminate.
Qed.

(** ** Success lines *)

Ltac announced :=
  split; intros i H; by_index H i; try differ H;
  first [ reflexivity | eexists; split; reflexivity ].

Lemma root_s3_announces (w : Emulator) :
  announces (trace (Root.create_s3_bucket w))
    (CreateBucket "test-bucket") "✅ S3 Bucket 'test-bucket' created".
Proof. unfold announces. py_run; announced. Qed.

Lemma sim_s3_announces_bucket (w : Emulator) :
  announces (trace (StorageSimulator.create_s3_bucket w))
    (CreateBucket "test-bucket") "✅ S3 Bucket 'test-bucket' created".
Proof. unfold announces. py_run; announced. Qed.

Lemma sim_s3_announces_upload (w : Emulator) :
  announces (trace (StorageSimulator.create_s3_bucket w))
    upload_call "✅ S3 Upload successful via Boto3".
Proof. unfold announces, upload_call. py_run; announced. Qed.

Lemma azure_announces (w : Emulator) :
  announces (trace (Root.create_azure_container w))
    CreateContainer "✅ Azure Container 'test-container' created" /\
  announces (trace (StorageSimulator.create_azure_container w))
    CreateContainer "✅ Azure Container 'test-container' created".
Proof. unfold announces. split; py_run; announced. Qed.

(** X2. A success line is printed exactly when its call returned: the
    created line right after every normal return of [create_bucket]
    (either script) or [create_container] (either script), the upload line
    right after every normal return of [put_object], and at no other
    place of the run. *)
Theorem success_lines_are_truthful (w : Emulator) :
  announces (trace (Root.create_s3_bucket w))
    (CreateBucket "test-bucket") "✅ S3 Bucket 'test-bucket' created" /\
  announces (trace (StorageSimulator.create_s3_bucket w))
    (CreateBucket "test-bucket") "✅ S3 Bucket 'test-bucket' created" /\
  announces (trace (StorageSimulator.create_s3_bucket w))
    upload_call "✅ S3 Upload successful via Boto3" /\
  announces (trace (Root.create_azure_container w))
    CreateContainer "✅ Azure Container 'test-container' created" /\
  announces (trace (StorageSimulator.create_azure_container w))
    CreateContainer "✅ Azure Container 'test-container' created".
Proof.
  split; [apply root_s3_announces |].
  split; [apply sim_s3_announces_bucket |].
  split; [apply sim_s3_announces_upload |].
  apply azure_announces.
Qed.

End Outputs.

Section Grammar.
Context `{sdk : SDK}.

(** ** The shape of the output *)

Lemma root_s3_two_messages (w : Emulator) :
  exists status,
    stdout (trace (Root.create_s3_bucket w)) = [ "Creating S3 bucket..."; status ] /\
    root_s3_status status.
Proof.
  unfold root_s3_status. py_run; eexists; (split; [reflexivity |]).
  all: first [ left; reflexivity | right; eexists; reflexivity ].
Qed.

Lemma azure_two_messages (w : Emulator) (r : Completion unit * Emulator * list Event) :
  r = Root.create_azure_container w \/ r = StorageSimulator.create_azure_container w ->
  exists status,
    stdout (trace r) = [ "Creating Azure container..."; status ] /\
    azure_status status.
Proof.
  unfold azure_status. intros [-> | ->]; py_run; eexists; (split; [reflexivity |]).
  all: first [ left; reflexivity
             | right; left; reflexivity
             | right; right; left; eexists; reflexivity
             | right; right; right; eexists; reflexivity ].
Qed.

Lemma sim_s3_output_shape (w : Emulator) :
  sim_s3_output (stdout (trace (StorageSimulator.create_s3_bucket w))).
Proof.
  unfold sim_s3_output. py_run.
  all: first
    [ (* the run ended before the listing was printed *)
      exists e, "", "✅ S3 Bucket 'test-bucket' created";
      split; [left; reflexivity | left; reflexivity]
    | match goal with
      | e : PyException |- _ =>
          exists e, "", "✅ S3 Bucket 'test-bucket' created";
          split; [left; reflexivity | left; reflexivity]
      end
    | exists (mkExc "KeyError" "'Buckets'"), "", "✅ S3 Bucket 'test-bucket' created";
      split; [left; reflexivity | left; reflexivity]
    | match goal with
      | e : PyException, s : string |- _ =>
          first
            [ exists e, s, "✅ S3 Bucket 'test-bucket' created";
              split; [left; reflexivity |];
              first [ right; left; reflexivity
                    | right; right; left; reflexivity
                    | right; right; right; reflexivity ]
            | exists e, s, "ℹ️ S3 Bucket already exists";
              split; [right; reflexivity |];
              first [ right; right; left; reflexivity
                    | right; right; right; reflexivity ] ]
      end
    | match goal with
      | s : string |- _ =>
          exists (mkExc "" ""), s, "✅ S3 Bucket 'test-bucket' created";
          split; [left; reflexivity | right; right; right; reflexivity]
      end ].
Qed.

(** X3. The [print] calls of a run have a fixed shape.  The root
    script's S3 step and the Azure step of both scripts make exactly two
    [print] calls: the header and one status message (created, already
    exists, or an error report).  The storage-simulator script's S3 step
    makes two to four: the header, the bucket listing, the created or
    already-exists message, and last the upload message or the error
    report.  (An error report carries [str(e)], so one message may span
    several lines of the terminal.) *)
Theorem output_has_fixed_shape (w : Emulator) :
  (exists status,
     stdout (trace (Root.create_s3_bucket w)) = [ "Creating S3 bucket..."; status ] /\
     root_s3_status status) /\
  (exists status,
     stdout (trace (Root.create_azure_container w))
       = [ "Creating Azure container..."; status ] /\
     azure_status status) /\
  (exists status,
     stdout (trace (StorageSimulator.create_azure_container w))
       = [ "Creating Azure container..."; status ] /\
     azure_status status) /\
  sim_s3_output (stdout (trace (StorageSimulator.create_s3_bucket w))).
Proof.
  split; [apply root_s3_two_messages |].
  split; [apply (azure_two_messages w); left; reflexivity |].
  split; [apply (azure_two_messages w); right; reflexivity |].
  apply sim_s3_output_shape.
Qed.

(** ** The first call fails *)

(** X4. When [boto3.client] itself raises, either script's S3 step prints
    the S3 error report and returns; no other SDK call is made and the
    state is the one the failed call left. *)
Theorem s3_client_failure_stops (w w1 : Emulator) (e : PyException) :
  (boto3_client Root.s3_config w = (Raised e, w1) ->
   Root.create_s3_bucket w
   = (Normal tt, w1,
      [ Print "Creating S3 bucket...";
        Call (Boto3Client Root.s3_config) (Some e);
        Print ("❌ S3 Error: " +:+ exc_str e) ])) /\
  (boto3_client StorageSimulator.s3_config w = (Raised e, w1) ->
   StorageSimulator.create_s3_bucket w
   = (Normal tt, w1,
      [ Print "Creating S3 bucket...";
        Call (Boto3Client StorageSimulator.s3_config) (Some e);
        Print ("❌ S3 Error: " +:+ exc_str e) ])).
Proof.
  split; intros Hclient; py_unfold; rewrite Hclient; reflexivity.
Qed.

(** X5. A listing without a ['Buckets'] entry: the subscript raises
    [KeyError], which takes the error path like an SDK error.  The run
    prints the S3 error report with the quoted key as its text, calls
    neither [create_bucket] nor [put_object], and leaves the state as the
    listing left it. *)
Theorem sim_s3_missing_key_stops
    (w w1 w2 : Emulator) (s3 : S3Client) (response : PyDict) :
  boto3_client StorageSimulator.s3_config w = (Normal s3, w1) ->
  list_buckets s3 w1 = (Normal response, w2) ->
  response !! "Buckets" = None ->
  StorageSimulator.create_s3_bucket w
  = (Normal tt, w2,
     [ Print "Creating S3 bucket...";
       Call (Boto3Client StorageSimulator.s3_config) None;
       Call ListBuckets None;
       Print "❌ S3 Error: 'Buckets'" ]).
Proof.
  intros Hclient Hlist Hkey.
  py_unfold. rewrite Hclient. cbn. rewrite Hlist. cbn. rewrite Hkey. reflexivity.
Qed.

End Grammar.

Section Whole.
Context `{sdk : SDK}.

(** ** The output of the script *)

Lemma stdout_app (t1 t2 : list Event) : stdout (t1 ++ t2) = stdout t1 ++ stdout t2.
Proof. apply omap_app. Qed.

(** X6. Whatever the SDK calls do, both steps run and report.  The root
    script makes exactly four [print] calls: the S3 header, the S3 status
    message, the Azure header, the Azure status message.  The
    storage-simulator script prints the messages of its S3 step (two to
    four) and then the Azure header and the Azure status message. *)
Theorem main_reports_both_steps (w : Emulator) :
  (exists s3_status blob_status,
     stdout (trace (Root.main w))
     = [ "Creating S3 bucket..."; s3_status;
         "Creating Azure container..."; blob_status ] /\
     root_s3_status s3_status /\ azure_status blob_status) /\
  (exists s3_lines blob_status,
     stdout (trace (StorageSimulator.main w))
     = s3_lines ++ [ "Creating Azure container..."; blob_status ] /\
     s3_lines = stdout (trace (StorageSimulator.create_s3_bucket w)) /\
     sim_s3_output s3_lines /\ azure_status blob_status).
Proof.
  split.
  - destruct (root_s3_two_messages w) as (s3_status & Hs3 & Hst).
    destruct (azure_two_messages (final (Root.create_s3_bucket w)) _ (or_introl eq_refl))
      as (blob_status & Hblob & Hbt).
    exists s3_status, blob_status.
    assert (trace (Root.main w)
            = trace (Root.create_s3_bucket w)
              ++ trace (Root.create_azure_container (final (Root.create_s3_bucket w))))
      as -> by (rewrite root_main_sequence; reflexivity).
    rewrite stdout_app, Hs3, Hblob.
    repeat split; assumption.
  - destruct (azure_two_messages (final (StorageSimulator.create_s3_bucket w)) _
                (or_intror eq_refl)) as (blob_status & Hblob & Hbt).
    exists (stdout (trace (StorageSimulator.create_s3_bucket w))), blob_status.
    assert (trace (StorageSimulator.main w)
            = trace (StorageSimulator.create_s3_bucket w)
              ++ trace (StorageSimulator.create_azure_container
                          (final (StorageSimulator.create_s3_bucket w))))
      as -> by (rewrite sim_main_sequence; reflexivity).
    rewrite stdout_app, Hblob.
    split; [reflexivity |]. split; [reflexivity |].
    split; [apply sim_s3_output_shape | assumption].
Qed.

(** X7. The Azure step is the same code in both scripts: the same
    connection string and the same function, on every SDK and state. *)
Theorem azure_step_is_shared :
  Root.connection_string = StorageSimulator.connection_string /\
  forall w : Emulator,
    Root.create_azure_container w = StorageSimulator.create_azure_container w.
Proof. split; reflexivity. Qed.

(** ** Error lines *)

Lemma append_cancel (p a b : string) : p +:+ a = p +:+ b -> a = b.
Proof.
  induction p as [|c p IH]; [exact id |].
  rewrite !append_String. intros H. injection H as H. exact (IH H).
Qed.

(** X8. An error line is read back without ambiguity: it comes from one
    clause only (S3, Azure creation, or Azure set-up), and it carries the
    text of the exception unchanged. *)
Theorem error_line_is_unambiguous (line : string) (e1 e2 : PyException) :
  error_report line e1 -> error_report line e2 ->
  exc_str e1 = exc_str e2 /\
  (forall a b, "❌ S3 Error: " +:+ a <> "❌ Azure Error: " +:+ b) /\
  (forall a b, "❌ S3 Error: " +:+ a <> "❌ Azure Script Error: " +:+ b) /\
  (forall a b, "❌ Azure Error: " +:+ a <> "❌ Azure Script Error: " +:+ b).
Proof.
  intros H1 H2. split; [| repeat split; intros a b H; differ H].
  destruct H1 as [-> | [-> | ->]], H2 as [H | [H | H]];
    first [ exact (append_cancel _ _ _ H) | differ H ].
Qed.

End Whole.

(** ** What exists after a success line *)

Section Postconditions.
Context `{sdk : SDK}.

(** The contracts of the two creation calls: after a normal return the
    bucket, or the container the client was obtained for, exists. *)
Variable bucket_exists : Emulator -> string -> Prop.
Variable container_exists : Emulator -> string -> Prop.
Hypothesis create_bucket_creates :
  forall s3 b w w', create_bucket s3 b w = (Normal tt, w') -> bucket_exists w' b.
Hypothesis create_container_creates :
  forall service n w0 w1 c w w',
    get_container_client service n w0 = (Normal c, w1) ->
    create_container c w = (Normal tt, w') -> container_exists w' n.

(** X9. In the root script, when the created line is printed the bucket
    [test-bucket] exists in the state the S3 step leaves. *)
Theorem root_s3_created_means_exists (w : Emulator) :
  "✅ S3 Bucket 'test-bucket' created" ∈ stdout (trace (Root.create_s3_bucket w)) ->
  bucket_exists (final (Root.create_s3_bucket w)) "test-bucket".
Proof.
  py_run; cbn; intros Hin.
  all: rewrite ?elem_of_cons, ?elem_of_nil in Hin.
  all: try (eapply create_bucket_creates; eassumption).
  all: repeat match goal with
              | H : _ \/ _ |- _ => destruct H as [H | H]
              | H : False |- _ => destruct H
              | H : _ = _ |- _ => differ H
              end.
Qed.

(** X10. In both scripts, when the created line of the Azure step is
    printed the container [test-container] exists in the state the step
    leaves. *)
Theorem azure_created_means_exists
    (w : Emulator) (r : Completion unit * Emulator * list Event) :
  r = Root.create_azure_container w \/ r = StorageSimulator.create_azure_container w ->
  "✅ Azure Container 'test-container' created" ∈ stdout (trace r) ->
  container_exists (final r) "test-container".
Proof.
  intros [-> | ->]; py_run; cbn; intros Hin.
  all: rewrite ?elem_of_cons, ?elem_of_nil in Hin.
  all: try (eapply create_container_creates; eassumption).
  all: repeat match goal with
              | H : _ \/ _ |- _ => destruct H as [H | H]
              | H : False |- _ => destruct H
              | H : _ = _ |- _ => differ H
              end.
Qed.

End Postconditions.

(** ** The further statements at work *)

Lemma emu_create_bucket_creates (c : S3Config) (b : string) (w w' : Services) :
  emu_create_bucket c b w = (Normal tt, w') -> emu_bucket_exists w' b.
Proof.
  unfold emu_create_bucket, emu_bucket_exists.
  destruct (s3_up w); [| discriminate].
  destruct (s3_buckets w !! b); [discriminate |].
  intros H; injection H as <-. cbn. rewrite lookup_insert_eq. eauto.
Qed.

Lemma emu_create_container_creates
    (service : unit) (n : string) (w0 w1 : Services) (c : string) (w w' : Services) :
  emu_get_container_client service n w0 = (Normal c, w1) ->
  emu_create_container c w = (Normal tt, w') -> emu_container_exists w' n.
Proof.
  unfold emu_get_container_client, emu_create_container, emu_container_exists.
  intros Hc; injection Hc as Hn _; subst c.
  destruct (blob_up w); [| discriminate].
  destruct (decide (n ∈ blob_containers w)); [discriminate |].
  intros H; injection H as <-. cbn. set_solver.
Qed.

Lemma s3_client_failure_stops_witness :
  stdout (trace (@Root.create_s3_bucket (canned_sdk (client_fails InternalError)) tt))
  = [ "Creating S3 bucket..."; "❌ S3 Error: " +:+ exc_str InternalError ] /\
  calls (trace (@StorageSimulator.create_s3_bucket
                  (canned_sdk (client_fails InternalError)) tt))
  = [ Boto3Client StorageSimulator.s3_config ].
Proof.
  split.
  - rewrite (proj1 (@s3_client_failure_stops (canned_sdk (client_fails InternalError))
                      tt tt InternalError) eq_refl).
    reflexivity.
  - rewrite (proj2 (@s3_client_failure_stops (canned_sdk (client_fails InternalError))
                      tt tt InternalError) eq_refl).
    reflexivity.
Defined.

Lemma sim_s3_missing_key_stops_witness :
  @StorageSimulator.create_s3_bucket (canned_sdk no_buckets_key) tt
  = (Normal tt, tt,
     [ Print "Creating S3 bucket...";
       Call (Boto3Client StorageSimulator.s3_config) None;
       Call ListBuckets None;
       Print "❌ S3 Error: 'Buckets'" ]).
Proof.
  exact (@sim_s3_missing_key_stops (canned_sdk no_buckets_key) tt tt tt tt ∅
           eq_refl eq_refl eq_refl).
Defined.

Lemma error_line_is_unambiguous_witness :
  exc_str InternalError = exc_str (ValueError (exc_str InternalError)).
Proof.
  exact (proj1 (error_line_is_unambiguous
                  ("❌ Azure Error: " +:+ exc_str InternalError)
                  InternalError (ValueError (exc_str InternalError))
                  (or_intror (or_introl eq_refl)) (or_intror (or_introl eq_refl)))).
Defined.

Lemma root_s3_created_means_exists_witness :
  emu_bucket_exists (final (@Root.create_s3_bucket emulator_sdk fresh)) "test-bucket".
Proof.
  apply (@root_s3_created_means_exists emulator_sdk emu_bucket_exists
           emu_create_bucket_creates fresh).
  apply list_elem_of_further, list_elem_of_here.
Defined.

Lemma azure_created_means_exists_witness :
  emu_container_exists (final (@StorageSimulator.create_azure_container emulator_sdk fresh))
    "test-container".
Proof.
  apply (@azure_created_means_exists emulator_sdk emu_container_exists
           emu_create_container_creates fresh _ (or_intror eq_refl)).
  apply list_elem_of_further, list_elem_of_here.
Defined.

Section Scraping.
Context `{sdk : SDK}.

(** ** Reading the outcome off the last message *)

Ltac in_explicit H :=
  cbn in H; rewrite ?elem_of_cons, ?elem_of_nil in H;
  repeat match goal with
         | H : _ \/ _ |- _ => destruct H as [H | H]
         | H : False |- _ => destruct H
         end.

Ltac last_line_case :=
  split;
  [ intros (c & exn & Hin & Hnot); in_explicit Hin; try discriminate Hin;
    first
      [ eexists; split; reflexivity
      | exfalso; injection Hin as -> ->; apply Hnot; split; [reflexivity |];
        unfold azure_already_exists; assumption ]
  | intros (l & Hl & Herr); cbn in Hl; injection Hl as <-;
    first
      [ discriminate Herr
      | eexists; eexists; split;
        [ cbn; rewrite ?elem_of_cons;
          first [ left; reflexivity
                | right; left; reflexivity
                | right; right; left; reflexivity
                | right; right; right; left; reflexivity ]
        | intros [Hc Hyes]; first [ discriminate Hc
                                  | unfold azure_already_exists in Hyes; congruence ] ] ] ].

(** X11. The last message tells whether the step failed.  For the root
    script's S3 step and the Azure step of both scripts: the text of the
    last [print] call starts with the error glyph exactly when some SDK
    call of the run raised an exception other than a [create_container]
    error classified as already-exists. *)
Theorem last_message_tells_failure
    (w : Emulator) (r : Completion unit * Emulator * list Event) :
  r = Root.create_s3_bucket w \/
  r = Root.create_azure_container w \/
  r = StorageSimulator.create_azure_container w ->
  (exists c e, Call c (Some e) ∈ trace r /\
     ~ (c = CreateContainer /\ azure_already_exists e = true)) <->
  (exists message,
     last (stdout (trace r)) = Some message /\ is_error_line message = true).
Proof.
  intros [-> | [-> | ->]]; py_run; last_line_case.
Qed.

End Scraping.

(** Both endpoints down: the last message of each of the three steps is
    an error report. *)
Lemma last_message_tells_failure_witness :
  (exists message,
     last (stdout (trace (@Root.create_s3_bucket emulator_sdk down))) = Some message /\
     is_error_line message = true) /\
  (exists message,
     last (stdout (trace (@Root.create_azure_container emulator_sdk down)))
       = Some message /\
     is_error_line message = true) /\
  (exists message,
     last (stdout (trace (@StorageSimulator.create_azure_container emulator_sdk down)))
       = Some message /\
     is_error_line message = true).
Proof.
  split; [| split].
  - apply (proj1 (@last_message_tells_failure emulator_sdk down _ (or_introl eq_refl))).
    exists (CreateBucket "test-bucket"), (EndpointConnectionError "http://127.0.0.1:8333").
    split.
    + apply list_elem_of_further, list_elem_of_further, list_elem_of_here.
    + intros [Hc _]. discriminate Hc.
  - apply (proj1 (@last_message_tells_failure emulator_sdk down _
                    (or_intror (or_introl eq_refl)))).
    exists CreateContainer, ServiceRequestError.
    split.
    + apply list_elem_of_further, list_elem_of_further, list_elem_of_further,
        list_elem_of_here.
    + intros [_ Hyes]. discriminate Hyes.
  - apply (proj1 (@last_message_tells_failure emulator_sdk down _
                    (or_intror (or_intror eq_refl)))).
    exists CreateContainer, ServiceRequestError.
    split.
    + apply list_elem_of_further, list_elem_of_further, list_elem_of_further,
        list_elem_of_here.
    + intros [_ Hyes]. discriminate Hyes.
Defined.
